(** * nfqTrace: parasitic NFQueue TCP traceroute

    A shallow embedding of [nfqTrace.go] (package main): the per-flow
    traceroute engine [NFQueueTraceroute], its response timer, the flow
    tracker, the observer that dispatches diverted packets and sniffed ICMP
    replies, and the flow-key extraction from an ICMP payload.

    Go values are modelled as follows.
    - [uint8] and [int] are [Z] with the wrap-around written out
      ([Go.uint8], [Go.int]).
    - [[]byte] and [net.IP] are [list byte]; a slice bound is checked against
      the length of the list.
    - an unbuffered channel is its open/closed state; who is ready to receive
      on it is read off the state of the goroutine that listens to it.
    - a function that can panic or block for ever returns a [Go.Result].
    - the gopacket codec (layer decoding and serialisation) is an external
      library: it is the interface [PacketCodec]. *)

From Stdlib Require Import ZArith List Bool Lia String.
From Stdlib.Strings Require Import Byte.
Import ListNotations.
Local Open Scope Z_scope.

(* ================================================================= *)
(** ** The Go runtime: machine integers, panics, blocking, channels *)

Module Go.

(** Conversion to [uint8]: the value modulo 2^8. *)
Definition uint8 (z : Z) : Z := z mod 256.

(** Conversion to [uint16]. *)
Definition uint16 (z : Z) : Z := z mod 65536.

(** Conversion to [int] (64 bits, two's complement). *)
Definition int (z : Z) : Z := (z + 2 ^ 63) mod 2 ^ 64 - 2 ^ 63.

Inductive Panic : Type :=
| SendOnClosedChannel
| CloseOfClosedChannel
| IntegerDivideByZero
| SliceBoundsOutOfRange
| NilPointerDereference.

(** A pure computation that may panic. *)
Inductive Checked (A : Type) : Type :=
| Ok (a : A)
| Raise (e : Panic).
Arguments Ok {A} a.
Arguments Raise {A} e.

(** The result of running a method on a receiver of type [S]:
    it returns a value and leaves the receiver in a new state, or the
    process panics, or the calling goroutine blocks for ever and leaves
    the receiver as it was at that point. *)
Inductive Result (S A : Type) : Type :=
| Returns (a : A) (s : S)
| Panics (e : Panic)
| Blocks (s : S).
Arguments Returns {S A} a s.
Arguments Panics {S A} e.
Arguments Blocks {S A} s.

Definition M (S A : Type) : Type := S -> Result S A.

Definition ret {S A} (a : A) : M S A := fun s => Returns a s.

Definition bind {S A B} (m : M S A) (k : A -> M S B) : M S B :=
  fun s =>
    match m s with
    | Returns a s' => k a s'
    | Panics e => Panics e
    | Blocks s' => Blocks s'
    end.

Definition get {S} : M S S := fun s => Returns s s.

Definition modify {S} (f : S -> S) : M S unit := fun s => Returns tt (f s).

Definition panic {S A} (e : Panic) : M S A := fun _ => Panics e.

Definition liftC {S A} (c : Checked A) : M S A :=
  fun s => match c with Ok a => Returns a s | Raise e => Panics e end.

(** The state a call leaves behind, when the process survives it. *)
Definition left_by {S A} (r : Result S A) : option S :=
  match r with
  | Returns _ s => Some s
  | Panics _ => None
  | Blocks s => Some s
  end.

Inductive Chan : Type := Open | Closed.

(** [close(c)]: panics on a closed channel. *)
Definition close (c : Chan) : Checked Chan :=
  match c with
  | Open => Ok Closed
  | Closed => Raise CloseOfClosedChannel
  end.

(** [s[lo:hi]] on a slice whose capacity is its length. *)
Definition slice {A} (s : list A) (lo hi : Z) : Checked (list A) :=
  if (lo <? 0) || (hi <? lo) || (Z.of_nat (List.length s) <? hi)
  then Raise SliceBoundsOutOfRange
  else Ok (firstn (Z.to_nat (hi - lo)) (skipn (Z.to_nat lo) s)).

Definition bindC {A B} (c : Checked A) (k : A -> Checked B) : Checked B :=
  match c with Ok a => k a | Raise e => Raise e end.

End Go.

Import Go.

Declare Scope go_scope.
Delimit Scope go_scope with go.
Notation "x <- m ;; k" := (bind m (fun x => k))
  (at level 61, m at next level, right associativity) : go_scope.
Notation "m ;; k" := (bind m (fun _ => k))
  (at level 61, right associativity) : go_scope.
Local Open Scope go_scope.

(* ================================================================= *)
(** ** gopacket: flows, endpoints, layers *)

Definition IP : Type := list byte.

Inductive EndpointType : Type :=
| EndpointInvalid
| EndpointIPv4
| EndpointTCPPort.

Definition EndpointType_eqb (a b : EndpointType) : bool :=
  match a, b with
  | EndpointInvalid, EndpointInvalid => true
  | EndpointIPv4, EndpointIPv4 => true
  | EndpointTCPPort, EndpointTCPPort => true
  | _, _ => false
  end.

(** [gopacket.Endpoint]: a type and the raw bytes of the address. *)
Record Endpoint : Type := NewEndpoint {
  etyp : EndpointType;
  eraw : list byte
}.

(** [gopacket.Flow]: a type and the raw bytes of source and destination. *)
Record Flow : Type := NewFlow {
  ftyp : EndpointType;
  fsrc : list byte;
  fdst : list byte
}.

(** [gopacket.FlowFromEndpoints]: an error when the two types differ. *)
Definition FlowFromEndpoints (src dst : Endpoint) : option Flow :=
  if EndpointType_eqb (etyp src) (etyp dst)
  then Some (NewFlow (etyp src) (eraw src) (eraw dst))
  else None.

(** The zero value of [gopacket.Flow]. *)
Definition zeroFlow : Flow := NewFlow EndpointInvalid [] [].

(** [layers.IPv4], the fields this program reads or writes. *)
Record IPv4 : Type := {
  TTL : Z;
  SrcIP : IP;
  DstIP : IP
}.

(** [layers.TCP]: the raw port bytes that [TransportFlow] reads. *)
Record TCP : Type := {
  sPort : list byte;
  dPort : list byte
}.

Definition zeroIPv4 : IPv4 := {| TTL := 0; SrcIP := []; DstIP := [] |}.
Definition zeroTCP : TCP := {| sPort := []; dPort := [] |}.

Definition NetworkFlow (ip : IPv4) : Flow :=
  NewFlow EndpointIPv4 (SrcIP ip) (DstIP ip).

Definition TransportFlow (tcp : TCP) : Flow :=
  NewFlow EndpointTCPPort (sPort tcp) (dPort tcp).

Definition byteZ (b : byte) : Z := Z.of_N (Byte.to_N b).

(** Conversion of an integer to [byte]: its low 8 bits. *)
Definition Zbyte (z : Z) : byte :=
  match Byte.of_N (Z.to_N (Z.land z 255)) with
  | Some b => b
  | None => x00
  end.

(** [binary.BigEndian.Uint16(b)] is [uint16(b[1]) | uint16(b[0])<<8]. *)
Definition BigEndian_Uint16 (b : list byte) : Checked Z :=
  match b with
  | b0 :: b1 :: _ => Ok (Z.lor (byteZ b1) (Z.shiftl (byteZ b0) 8))
  | _ => Raise SliceBoundsOutOfRange
  end.

(** [layers.NewTCPPortEndpoint(p)] is
    [NewEndpoint(EndpointTCPPort, []byte{byte(p >> 8), byte(p)})]. *)
Definition NewTCPPortEndpoint (p : Z) : Endpoint :=
  NewEndpoint EndpointTCPPort [Zbyte (Z.shiftr p 8); Zbyte p].

Inductive LayerType : Type :=
| LayerTypeIPv4
| LayerTypeTCP
| LayerTypeOther.  (* any layer type this program never asks for *)

Inductive Layer : Type :=
| IPv4Layer (ip : IPv4)
| TCPLayer (tcp : TCP)
| OtherLayer (contents : list byte).

Definition layerType (l : Layer) : LayerType :=
  match l with
  | IPv4Layer _ => LayerTypeIPv4
  | TCPLayer _ => LayerTypeTCP
  | OtherLayer _ => LayerTypeOther
  end.

Definition LayerType_eqb (a b : LayerType) : bool :=
  match a, b with
  | LayerTypeIPv4, LayerTypeIPv4 => true
  | LayerTypeTCP, LayerTypeTCP => true
  | LayerTypeOther, LayerTypeOther => true
  | _, _ => false
  end.

(** [gopacket.Packet]: the decoded layers, outermost first. *)
Definition Packet_ : Type := list Layer.

(** [p.Layer(t)]: the first layer of type [t], or nil. *)
Definition PacketLayer (p : Packet_) (t : LayerType) : option Layer :=
  find (fun l => LayerType_eqb (layerType l) t) p.

(** What [parser.DecodeLayers(packet, &decoded)] leaves behind for a parser
    built with [NewDecodingLayerParser(LayerTypeIPv4, &ip, &tcp)]:
    whether it returned an error, and the two layer structs as the parser
    left them (zero where it did not reach them). *)
Record Decoded : Type := {
  decodeErr : bool;
  decodedIP : IPv4;
  decodedTCP : TCP
}.

(** The codec this program takes from gopacket. *)
Class PacketCodec : Type := {
  (** [gopacket.SerializeLayers(buf, opts, ip, tcp)] with [FixLengths] and
      [ComputeChecksums], after [tcp.SetNetworkLayerForChecksum(ip)]:
      the bytes of the buffer, or [None] on error. *)
  SerializeLayers : IPv4 -> TCP -> option (list byte);
  DecodeLayers : list byte -> Decoded
}.

(* ================================================================= *)
(** ** netfilter: packets and verdicts *)

Inductive Verdict : Type := NF_DROP | NF_ACCEPT | NF_REPEAT.

Record NFPacket : Type := { Packet : Packet_ }.

(** A call that settles a diverted packet. A nil byte slice is [None]. *)
Inductive VerdictCall : Type :=
| SetVerdict (v : Verdict)
| SetModifiedVerdict (v : Verdict) (packet : option (list byte)).

(* ================================================================= *)
(** ** The per-flow engine *)

Definition flowKey : Type := (Flow * Flow)%type.

(** Where the timer goroutine of an engine is. *)
Inductive TimerGoroutine : Type :=
| Selecting     (* in its [select], ready to receive on both channels *)
| Returned      (* it has returned *)
| StuckInStop.  (* it called [Stop] itself and waits on its own channel *)

(** The goroutine that calls [Stop]. *)
Inductive Caller : Type :=
| FromConsumer  (* the divertor or the sniffer goroutine *)
| FromTimer.    (* the timer goroutine of this engine *)

Record NFQueueTraceroute : Type := {
  ttl : Z;
  ttlMax : Z;
  ttlRepeat : Z;
  ttlRepeatMax : Z;
  mangleFreq : Z;
  count : Z;
  traceResult : list (Z * list IP);
  stopped : bool;
  responseTimedOut : bool;
  stopTimerChannel : Chan;
  restartTimerChannel : Chan;
  timer : TimerGoroutine
}.

Definition set_ttl (v : Z) (n : NFQueueTraceroute) : NFQueueTraceroute :=
  {| ttl := v; ttlMax := ttlMax n; ttlRepeat := ttlRepeat n;
     ttlRepeatMax := ttlRepeatMax n; mangleFreq := mangleFreq n;
     count := count n; traceResult := traceResult n; stopped := stopped n;
     responseTimedOut := responseTimedOut n;
     stopTimerChannel := stopTimerChannel n;
     restartTimerChannel := restartTimerChannel n; timer := timer n |}.

Definition set_ttlRepeat (v : Z) (n : NFQueueTraceroute) : NFQueueTraceroute :=
  {| ttl := ttl n; ttlMax := ttlMax n; ttlRepeat := v;
     ttlRepeatMax := ttlRepeatMax n; mangleFreq := mangleFreq n;
     count := count n; traceResult := traceResult n; stopped := stopped n;
     responseTimedOut := responseTimedOut n;
     stopTimerChannel := stopTimerChannel n;
     restartTimerChannel := restartTimerChannel n; timer := timer n |}.

Definition set_count (v : Z) (n : NFQueueTraceroute) : NFQueueTraceroute :=
  {| ttl := ttl n; ttlMax := ttlMax n; ttlRepeat := ttlRepeat n;
     ttlRepeatMax := ttlRepeatMax n; mangleFreq := mangleFreq n;
     count := v; traceResult := traceResult n; stopped := stopped n;
     responseTimedOut := responseTimedOut n;
     stopTimerChannel := stopTimerChannel n;
     restartTimerChannel := restartTimerChannel n; timer := timer n |}.

Definition set_traceResult (v : list (Z * list IP)) (n : NFQueueTraceroute)
  : NFQueueTraceroute :=
  {| ttl := ttl n; ttlMax := ttlMax n; ttlRepeat := ttlRepeat n;
     ttlRepeatMax := ttlRepeatMax n; mangleFreq := mangleFreq n;
     count := count n; traceResult := v; stopped := stopped n;
     responseTimedOut := responseTimedOut n;
     stopTimerChannel := stopTimerChannel n;
     restartTimerChannel := restartTimerChannel n; timer := timer n |}.

Definition set_stopped (v : bool) (n : NFQueueTraceroute) : NFQueueTraceroute :=
  {| ttl := ttl n; ttlMax := ttlMax n; ttlRepeat := ttlRepeat n;
     ttlRepeatMax := ttlRepeatMax n; mangleFreq := mangleFreq n;
     count := count n; traceResult := traceResult n; stopped := v;
     responseTimedOut := responseTimedOut n;
     stopTimerChannel := stopTimerChannel n;
     restartTimerChannel := restartTimerChannel n; timer := timer n |}.

Definition set_responseTimedOut (v : bool) (n : NFQueueTraceroute)
  : NFQueueTraceroute :=
  {| ttl := ttl n; ttlMax := ttlMax n; ttlRepeat := ttlRepeat n;
     ttlRepeatMax := ttlRepeatMax n; mangleFreq := mangleFreq n;
     count := count n; traceResult := traceResult n; stopped := stopped n;
     responseTimedOut := v;
     stopTimerChannel := stopTimerChannel n;
     restartTimerChannel := restartTimerChannel n; timer := timer n |}.

Definition set_stopTimerChannel (v : Chan) (n : NFQueueTraceroute)
  : NFQueueTraceroute :=
  {| ttl := ttl n; ttlMax := ttlMax n; ttlRepeat := ttlRepeat n;
     ttlRepeatMax := ttlRepeatMax n; mangleFreq := mangleFreq n;
     count := count n; traceResult := traceResult n; stopped := stopped n;
     responseTimedOut := responseTimedOut n;
     stopTimerChannel := v;
     restartTimerChannel := restartTimerChannel n; timer := timer n |}.

Definition set_restartTimerChannel (v : Chan) (n : NFQueueTraceroute)
  : NFQueueTraceroute :=
  {| ttl := ttl n; ttlMax := ttlMax n; ttlRepeat := ttlRepeat n;
     ttlRepeatMax := ttlRepeatMax n; mangleFreq := mangleFreq n;
     count := count n; traceResult := traceResult n; stopped := stopped n;
     responseTimedOut := responseTimedOut n;
     stopTimerChannel := stopTimerChannel n;
     restartTimerChannel := v; timer := timer n |}.

Definition set_timer (v : TimerGoroutine) (n : NFQueueTraceroute)
  : NFQueueTraceroute :=
  {| ttl := ttl n; ttlMax := ttlMax n; ttlRepeat := ttlRepeat n;
     ttlRepeatMax := ttlRepeatMax n; mangleFreq := mangleFreq n;
     count := count n; traceResult := traceResult n; stopped := stopped n;
     responseTimedOut := responseTimedOut n;
     stopTimerChannel := stopTimerChannel n;
     restartTimerChannel := restartTimerChannel n; timer := v |}.

(** [m[k]] on a Go map: the zero value (a nil slice) when [k] is absent. *)
Fixpoint mapGet (m : list (Z * list IP)) (k : Z) : list IP :=
  match m with
  | [] => []
  | (k', v) :: m' => if k' =? k then v else mapGet m' k
  end.

(** [m[k] = v] on a Go map. *)
Fixpoint mapSet (m : list (Z * list IP)) (k : Z) (v : list IP)
  : list (Z * list IP) :=
  match m with
  | [] => [(k, v)]
  | (k', v') :: m' =>
      if k' =? k then (k, v) :: m' else (k', v') :: mapSet m' k v
  end.

(** [NewNFQueueTraceroute]: the engine, with its timer goroutine started. *)
Definition NewNFQueueTraceroute (ttlMax_ ttlRepeatMax_ mangleFreq_ : Z)
  : NFQueueTraceroute :=
  {| ttl := 1;
     ttlMax := ttlMax_;
     ttlRepeat := 1;
     ttlRepeatMax := ttlRepeatMax_;
     mangleFreq := mangleFreq_;
     count := 1;
     traceResult := [];
     stopped := false;
     responseTimedOut := false;
     stopTimerChannel := Open;
     restartTimerChannel := Open;
     timer := Selecting |}.

(** [n.stopTimerChannel <- true]. The channel is unbuffered and its only
    receiver is the timer goroutine in its [select]: the send panics on a
    closed channel, is taken when the timer is selecting and somebody else
    sends (the timer then returns), and blocks for ever otherwise; in
    particular when the sender is the timer goroutine itself. *)
Definition send_stopTimerChannel (who : Caller) : M NFQueueTraceroute unit :=
  fun n =>
    match stopTimerChannel n with
    | Closed => Panics SendOnClosedChannel
    | Open =>
        match timer n, who with
        | Selecting, FromConsumer => Returns tt (set_timer Returned n)
        | Selecting, FromTimer => Blocks (set_timer StuckInStop n)
        | _, _ => Blocks n
        end
    end.

(** [n.restartTimerChannel <- true]: the timer takes it and goes back to
    its [select]. *)
Definition send_restartTimerChannel : M NFQueueTraceroute unit :=
  fun n =>
    match restartTimerChannel n with
    | Closed => Panics SendOnClosedChannel
    | Open =>
        match timer n with
        | Selecting => Returns tt n
        | _ => Blocks n
        end
    end.

Definition close_stopTimerChannel : M NFQueueTraceroute unit :=
  fun n =>
    match close (stopTimerChannel n) with
    | Ok c => Returns tt (set_stopTimerChannel c n)
    | Raise e => Panics e
    end.

Definition close_restartTimerChannel : M NFQueueTraceroute unit :=
  fun n =>
    match close (restartTimerChannel n) with
    | Ok c => Returns tt (set_restartTimerChannel c n)
    | Raise e => Panics e
    end.

(** [func (n *NFQueueTraceroute) Stop()]. *)
Definition Stop (who : Caller) : M NFQueueTraceroute unit :=
  modify (set_stopped true) ;;
  send_stopTimerChannel who ;;
  close_stopTimerChannel ;;
  close_restartTimerChannel.

(** The [time.After] case of the timer goroutine's [select]. *)
Definition TimerExpired : M NFQueueTraceroute unit :=
  n <- get ;;
  if (ttlMax n <=? ttl n) && (ttlRepeatMax n <=? ttlRepeat n)
  then Stop FromTimer ;; modify (set_timer Returned)
  else modify (set_responseTimedOut true).

(** [serializeWithTTL]. *)
Definition serializeWithTTL {codec : PacketCodec} (p : Packet_) (ttl_ : Z)
  : option (list byte) :=
  match PacketLayer p LayerTypeIPv4 with
  | Some (IPv4Layer ip) =>
      match PacketLayer p LayerTypeTCP with
      | Some (TCPLayer tcp) =>
          SerializeLayers
            {| TTL := ttl_; SrcIP := SrcIP ip; DstIP := DstIP ip |} tcp
      | _ => None
      end
  | _ => None
  end.

(** The advance to the next hop, in either branch of [processPacket]. *)
Definition nextHop : M NFQueueTraceroute unit :=
  modify (fun n => set_ttl (uint8 (ttl n + 1)) n) ;;
  modify (set_ttlRepeat 0) ;;
  modify (set_responseTimedOut false) ;;
  send_restartTimerChannel.

(** [func (n *NFQueueTraceroute) processPacket(p netfilter.NFPacket)]:
    the verdict calls made on [p]. *)
Definition processPacket {codec : PacketCodec} (p : NFPacket)
  : M NFQueueTraceroute (list VerdictCall) :=
  n <- get ;;
  if stopped n then ret [SetVerdict NF_ACCEPT]
  else if mangleFreq n =? 0 then panic IntegerDivideByZero
  else if Z.rem (count n) (mangleFreq n) =? 0 then
    modify (fun n => set_ttlRepeat (int (ttlRepeat n + 1)) n) ;;
    n <- get ;;
    (if responseTimedOut n then nextHop
     else if ttlRepeat n =? ttlRepeatMax n then nextHop
     else ret tt) ;;
    n <- get ;;
    if (ttlMax n <? ttl n) && (ttlRepeat n =? int (ttlRepeatMax n - 1))
    then
      Stop FromConsumer ;;
      ret [SetVerdict NF_ACCEPT]
    else
      modify (fun n => set_count (int (count n + 1)) n) ;;
      ret [SetModifiedVerdict NF_REPEAT (serializeWithTTL (Packet p) (ttl n))]
  else
    modify (fun n => set_count (int (count n + 1)) n) ;;
    ret [SetVerdict NF_ACCEPT].

(** [func (n *NFQueueTraceroute) replyReceived(ip net.IP)]. *)
Definition replyReceived (ip : IP) : M NFQueueTraceroute unit :=
  modify (fun n =>
    set_traceResult
      (mapSet (traceResult n) (ttl n) (mapGet (traceResult n) (ttl n) ++ [ip]))
      n) ;;
  n <- get ;;
  if (ttl n =? ttlMax n)
     && (ttlRepeatMax n <=? Z.of_nat (List.length (mapGet (traceResult n) (ttl n))))
  then Stop FromConsumer
  else ret tt.

(* ================================================================= *)
(** ** Flow keys from an ICMP payload *)

(** [getTCPFlowFromTCPHead]. The error of [FlowFromEndpoints] is dropped by
    the source; the flow is then the zero value. *)
Definition getTCPFlowFromTCPHead (data : list byte) : Checked Flow :=
  bindC (slice data 0 2) (fun s01 =>
  bindC (BigEndian_Uint16 s01) (fun srcPort =>
  bindC (slice data 2 4) (fun s23 =>
  bindC (BigEndian_Uint16 s23) (fun dstPort =>
    let tcpSrc := NewTCPPortEndpoint srcPort in
    let tcpDst := NewTCPPortEndpoint dstPort in
    match FlowFromEndpoints tcpSrc tcpDst with
    | Some tcpFlow => Ok tcpFlow
    | None => Ok zeroFlow
    end)))).

(** [getPacketFlow]. *)
Definition getPacketFlow {codec : PacketCodec} (packet : list byte) : Checked flowKey :=
  let d := DecodeLayers packet in
  let len := Z.of_nat (List.length packet) in
  if decodeErr d then
    bindC (slice packet (len - 8) len) (fun tcpHead =>
    bindC (getTCPFlowFromTCPHead tcpHead) (fun tcpFlow =>
      Ok (NetworkFlow (decodedIP d), tcpFlow)))
  else Ok (NetworkFlow (decodedIP d), TransportFlow (decodedTCP d)).

(* ================================================================= *)
(** ** The flow tracker *)

Definition bytes_eqb (a b : list byte) : bool :=
  if list_eq_dec Byte.byte_eq_dec a b then true else false.

Definition Flow_eqb (a b : Flow) : bool :=
  EndpointType_eqb (ftyp a) (ftyp b)
  && bytes_eqb (fsrc a) (fsrc b) && bytes_eqb (fdst a) (fdst b).

Definition flowKey_eqb (a b : flowKey) : bool :=
  Flow_eqb (fst a) (fst b) && Flow_eqb (snd a) (snd b).

(** [FlowTracker.flowMap]. The Go map holds pointers to engines that are
    updated in place; here the entry holds the engine's current state. *)
Definition FlowTracker : Type := list (flowKey * NFQueueTraceroute).

Definition NewFlowTracker : FlowTracker := [].

Fixpoint GetFlowTrace (f : FlowTracker) (flow : flowKey)
  : option NFQueueTraceroute :=
  match f with
  | [] => None
  | (k, n) :: f' => if flowKey_eqb k flow then Some n else GetFlowTrace f' flow
  end.

Definition HasFlow (f : FlowTracker) (flow : flowKey) : bool :=
  match GetFlowTrace f flow with Some _ => true | None => false end.

Fixpoint AddFlow (f : FlowTracker) (flow : flowKey) (nfqTrace : NFQueueTraceroute)
  : FlowTracker :=
  match f with
  | [] => [(flow, nfqTrace)]
  | (k, n) :: f' =>
      if flowKey_eqb k flow then (flow, nfqTrace) :: f'
      else (k, n) :: AddFlow f' flow nfqTrace
  end.

Definition Delete (f : FlowTracker) (flow : flowKey) : FlowTracker :=
  filter (fun kn => negb (flowKey_eqb (fst kn) flow)) f.

(* ================================================================= *)
(** ** The observer *)

Record NFQueueTraceObserverOptions : Type := {
  iface : string;
  optTtlMax : Z;
  optTtlRepeatMax : Z;
  optMangleFreq : Z
}.

Record NFQueueTraceObserver : Type := {
  options : NFQueueTraceObserverOptions;
  flowTracker : FlowTracker;
  nfqCloses : nat;      (* how many times [o.nfq.Close()] has run *)
  done : Chan;
  doneSenders : nat     (* callers of [Stop] waiting in [o.done <- true] *)
}.

Definition set_flowTracker (f : FlowTracker) (o : NFQueueTraceObserver)
  : NFQueueTraceObserver :=
  {| options := options o; flowTracker := f; nfqCloses := nfqCloses o;
     done := done o; doneSenders := doneSenders o |}.

Definition set_nfqCloses (c : nat) (o : NFQueueTraceObserver)
  : NFQueueTraceObserver :=
  {| options := options o; flowTracker := flowTracker o; nfqCloses := c;
     done := done o; doneSenders := doneSenders o |}.

Definition set_done (c : Chan) (o : NFQueueTraceObserver)
  : NFQueueTraceObserver :=
  {| options := options o; flowTracker := flowTracker o;
     nfqCloses := nfqCloses o; done := c; doneSenders := doneSenders o |}.

Definition set_doneSenders (k : nat) (o : NFQueueTraceObserver)
  : NFQueueTraceObserver :=
  {| options := options o; flowTracker := flowTracker o;
     nfqCloses := nfqCloses o; done := done o; doneSenders := k |}.

Definition NewNFQueueTraceObserver (opts : NFQueueTraceObserverOptions)
  : NFQueueTraceObserver :=
  {| options := opts; flowTracker := NewFlowTracker; nfqCloses := 0%nat;
     done := Open; doneSenders := 0%nat |}.

(** Run a method of the engine registered under [flow]; the engine is
    shared, so what the method leaves behind is what the tracker holds. *)
Definition onEngine {A} (flow : flowKey) (m : M NFQueueTraceroute A)
  : M NFQueueTraceObserver A :=
  fun o =>
    match GetFlowTrace (flowTracker o) flow with
    | None => Panics NilPointerDereference
    | Some n =>
        match m n with
        | Returns a n' => Returns a (set_flowTracker (AddFlow (flowTracker o) flow n') o)
        | Panics e => Panics e
        | Blocks n' => Blocks (set_flowTracker (AddFlow (flowTracker o) flow n') o)
        end
    end.

(** [func (o *NFQueueTraceObserver) processPacket(p netfilter.NFPacket)]:
    the verdict calls made on [p]. *)
Definition observerProcessPacket {codec : PacketCodec} (p : NFPacket)
  : M NFQueueTraceObserver (list VerdictCall) :=
  match PacketLayer (Packet p) LayerTypeIPv4,
        PacketLayer (Packet p) LayerTypeTCP with
  | Some (IPv4Layer ip), Some (TCPLayer tcp) =>
      let flow := (NetworkFlow ip, TransportFlow tcp) in
      o <- get ;;
      (if HasFlow (flowTracker o) flow then ret tt
       else
         let nfqTrace :=
           NewNFQueueTraceroute (optTtlMax (options o))
             (optTtlRepeatMax (options o)) (optMangleFreq (options o)) in
         modify (fun o => set_flowTracker (AddFlow (flowTracker o) flow nfqTrace) o)) ;;
      onEngine flow (processPacket p)
  | _, _ =>
      (* ignore non-tcp/ip packets *)
      ret []
  end.

(** A frame of the sniffer after the Ethernet, IPv4 and ICMPv4 layers were
    decoded. *)
Record IcmpFrame : Type := {
  icmpTypeCode : Z;
  outerSrcIP : IP;
  icmpPayload : list byte
}.

Definition ICMPv4TypeTimeExceeded : Z := 11.

(** One turn of the loop of [startReceivingReplies], from the test of the
    ICMP type on. *)
Definition receiveReply {codec : PacketCodec} (fr : IcmpFrame)
  : M NFQueueTraceObserver unit :=
  let typ := uint8 (Z.shiftr (icmpTypeCode fr) 8) in
  if negb (typ =? ICMPv4TypeTimeExceeded) then ret tt
  else
    flow <- liftC (getPacketFlow (icmpPayload fr)) ;;
    o <- get ;;
    if negb (HasFlow (flowTracker o) flow) then ret tt
    else onEngine flow (replyReceived (outerSrcIP fr)).

(** [func (o *NFQueueTraceObserver) Stop()]: [o.done <- true]. The send
    stays pending until the consumer takes it. *)
Definition observerStop : M NFQueueTraceObserver unit :=
  fun o =>
    match done o with
    | Closed => Panics SendOnClosedChannel
    | Open => Returns tt (set_doneSenders (S (doneSenders o)) o)
    end.

(** The case the [select] of the consumer of [Start] takes. *)
Inductive SelectCase : Type :=
| CasePacket (p : NFPacket)   (* [case p := <-o.packets] *)
| CaseDone.                   (* [case <-o.done] *)

(** [<-o.done] can proceed when a sender waits or the channel is closed. *)
Definition ready (o : NFQueueTraceObserver) (c : SelectCase) : bool :=
  match c with
  | CasePacket _ => true
  | CaseDone =>
      match done o with
      | Closed => true
      | Open => negb (Nat.eqb (doneSenders o) 0)
      end
  end.

(** Where the [for true] loop of the consumer goes after one turn. *)
Inductive LoopControl : Type :=
| NextIteration
| LoopExited.

Definition receive_done : M NFQueueTraceObserver unit :=
  modify (fun o =>
    match done o with
    | Closed => o
    | Open => set_doneSenders (Nat.pred (doneSenders o)) o
    end).

Definition close_done : M NFQueueTraceObserver unit :=
  fun o =>
    match close (done o) with
    | Ok c => Returns tt (set_done c o)
    | Raise e => Panics e
    end.

(** One turn of the loop in [Start]. The [break] of the [done] case is
    inside the [select]: it leaves the [select], not the [for]. *)
Definition consumerIteration {codec : PacketCodec} (c : SelectCase)
  : M NFQueueTraceObserver LoopControl :=
  match c with
  | CasePacket p =>
      observerProcessPacket p ;;
      ret NextIteration
  | CaseDone =>
      receive_done ;;
      modify (fun o => set_nfqCloses (S (nfqCloses o)) o) ;;
      close_done ;;
      ret NextIteration
  end.

(** The consumer of [Start] under a schedule of the cases its [select]
    takes; a case that cannot proceed is not taken. When the schedule is
    used up the loop is back in its [select]. *)
Fixpoint consumerLoop {codec : PacketCodec} (schedule : list SelectCase)
  : M NFQueueTraceObserver LoopControl :=
  match schedule with
  | [] => ret NextIteration
  | c :: rest =>
      fun o =>
        if ready o c then
          (ctl <- consumerIteration c ;;
           match ctl with
           | NextIteration => consumerLoop rest
           | LoopExited => ret LoopExited
           end) o
        else consumerLoop rest o
  end.

(* ================================================================= *)
(** ** One engine under its three sources of events *)

Inductive Event : Type :=
| Diverted (p : NFPacket)   (* the divertor hands over a packet *)
| TimerFires                (* the 200 s timeout of the timer goroutine *)
| Reply (ip : IP).          (* the sniffer reports a responder *)

(** The timer fires only while its goroutine is in the [select]. *)
Definition enabled (n : NFQueueTraceroute) (e : Event) : bool :=
  match e with
  | TimerFires => match timer n with Selecting => true | _ => false end
  | _ => true
  end.

Definition handle {codec : PacketCodec} (e : Event)
  : M NFQueueTraceroute (list VerdictCall) :=
  match e with
  | Diverted p => processPacket p
  | TimerFires => TimerExpired ;; ret []
  | Reply ip => replyReceived ip ;; ret []
  end.

(** The engine after a sequence of events, with the verdict calls of each
    diverted packet. An event that is not enabled does not happen. A timer
    goroutine that blocks leaves the other goroutines running; a consumer
    that blocks ends the run. *)
Fixpoint run {codec : PacketCodec} (es : list Event)
  : M NFQueueTraceroute (list (list VerdictCall)) :=
  match es with
  | [] => ret []
  | e :: es' =>
      fun n =>
        if enabled n e then
          match handle e n with
          | Returns v n' =>
              match e with
              | Diverted _ => (vs <- run es' ;; ret (v :: vs)) n'
              | _ => run es' n'
              end
          | Panics x => Panics x
          | Blocks n' =>
              match e with
              | TimerFires => run es' n'
              | _ => Blocks n'
              end
          end
        else run es' n
  end.

(** The states an engine can be in between calls: each call of
    [processPacket], of the timer's expiry case and of [replyReceived] is
    one step. The source takes no lock on the engine, so what another
    goroutine does in the middle of a call is not covered. *)
Inductive reachable {codec : PacketCodec} : NFQueueTraceroute -> Prop :=
| reachable_new (ttlMax_ ttlRepeatMax_ mangleFreq_ : Z) :
    reachable (NewNFQueueTraceroute ttlMax_ ttlRepeatMax_ mangleFreq_)
| reachable_step (n n' : NFQueueTraceroute) (e : Event) :
    reachable n ->
    enabled n e = true ->
    left_by (handle e n) = Some n' ->
    reachable n'.

(* ================================================================= *)
(** ** Two instances of the codec, to run the model on concrete packets *)

Definition be16 (b0 b1 : byte) : Z := 256 * byteZ b0 + byteZ b1.

(** A decoder of option-free headers in the manner of gopacket's
    [DecodingLayerParser]: layers are decoded while bytes remain; an IPv4
    header needs 20 bytes, version 4 and a header length of 5 words, and is
    followed by TCP when its protocol is 6; a TCP header needs 20 bytes;
    bytes after the TCP header belong to a layer the parser has no decoder
    for, which is an error. *)
Definition wireDecodeTCP (ip : IPv4) (data : list byte) : Decoded :=
  match data with
  | [] => {| decodeErr := false; decodedIP := ip; decodedTCP := zeroTCP |}
  | s0 :: s1 :: d0 :: d1 :: rest =>
      if (Nat.ltb (List.length rest) 16)
      then {| decodeErr := true; decodedIP := ip; decodedTCP := zeroTCP |}
      else {| decodeErr := negb (Nat.eqb (List.length rest) 16);
              decodedIP := ip;
              decodedTCP := {| sPort := [s0; s1]; dPort := [d0; d1] |} |}
  | _ => {| decodeErr := true; decodedIP := ip; decodedTCP := zeroTCP |}
  end.

Definition wireDecode (data : list byte) : Decoded :=
  match data with
  | [] => {| decodeErr := false; decodedIP := zeroIPv4; decodedTCP := zeroTCP |}
  | _ =>
      let hdr := firstn 20 data in
      if Nat.ltb (List.length data) 20
         || negb (byteZ (nth 0 hdr x00) =? 69)
      then {| decodeErr := true; decodedIP := zeroIPv4; decodedTCP := zeroTCP |}
      else
        let ip := {| TTL := byteZ (nth 8 hdr x00);
                     SrcIP := firstn 4 (skipn 12 hdr);
                     DstIP := firstn 4 (skipn 16 hdr) |} in
        if byteZ (nth 9 hdr x00) =? 6
        then wireDecodeTCP ip (skipn 20 data)
        else {| decodeErr := negb (Nat.eqb (List.length data) 20);
                decodedIP := ip; decodedTCP := zeroTCP |}
  end.

(** Its serialiser writes the two fixed headers for 4-byte addresses and
    2-byte ports (checksum fields left zero) and fails otherwise. *)
Definition wireSerialize (ip : IPv4) (tcp : TCP) : option (list byte) :=
  if Nat.eqb (List.length (SrcIP ip)) 4 && Nat.eqb (List.length (DstIP ip)) 4
     && Nat.eqb (List.length (sPort tcp)) 2 && Nat.eqb (List.length (dPort tcp)) 2
  then Some ([x45; x00; x00; x28; x00; x00; x00; x00; Zbyte (TTL ip); x06; x00; x00]
             ++ SrcIP ip ++ DstIP ip ++ sPort tcp ++ dPort tcp
             ++ [x00; x00; x00; x00; x00; x00; x00; x00; x50; x00; x00; x00;
                 x00; x00; x00; x00])
  else None.

Definition wireCodec : PacketCodec :=
  {| SerializeLayers := wireSerialize; DecodeLayers := wireDecode |}.

(** The same decoder with a serialiser that always reports an error. *)
Definition failingCodec : PacketCodec :=
  {| SerializeLayers := fun _ _ => None; DecodeLayers := wireDecode |}.

(** An outbound segment 192.168.1.10:40000 -> 10.9.8.7:2666. *)
Definition sampleIP : IPv4 :=
  {| TTL := 64; SrcIP := [xc0; xa8; x01; x0a]; DstIP := [x0a; x09; x08; x07] |}.
Definition sampleTCP : TCP :=
  {| sPort := [x9c; x40]; dPort := [x0a; x6a] |}.
Definition samplePacket : NFPacket :=
  {| Packet := [IPv4Layer sampleIP; TCPLayer sampleTCP] |}.

(** A diverted datagram with an IPv4 layer and no TCP layer. *)
Definition udpPacket : NFPacket :=
  {| Packet := [IPv4Layer sampleIP; OtherLayer [x00; x35; x00; x35]] |}.

Definition hop1 : IP := [x0a; x00; x00; x01].
Definition hop2 : IP := [x0a; x00; x00; x02].
Definition hop3 : IP := [x0a; x00; x00; x03].

(** What a verdict call amounts to when the spec speaks of it. *)
Definition ACCEPT : list VerdictCall := [SetVerdict NF_ACCEPT].
Definition REPEAT {codec : PacketCodec} (p : NFPacket) (ttl_ : Z) : list VerdictCall :=
  [SetModifiedVerdict NF_REPEAT (serializeWithTTL (Packet p) ttl_)].

(** An 8-byte remnant [2666 -> 40000 ...] after an unusable first byte. *)
Definition shortRemnant : list byte :=
  [x00; x0a; x6a; x9c; x40; x00; x00; x00; x01].

(** The [ttl] of the engine after a run, when the process survives it. *)
Definition ttl_after {codec : PacketCodec} (es : list Event)
  (n : NFQueueTraceroute) : option Z :=
  option_map ttl (left_by (run es n)).

Definition sampleOptions : NFQueueTraceObserverOptions :=
  {| iface := "wlan0"; optTtlMax := 40; optTtlRepeatMax := 3;
     optMangleFreq := 6 |}.

(** A time-exceeded frame from [hop1] whose payload is 7 bytes long. *)
Definition truncatedFrame : IcmpFrame :=
  {| icmpTypeCode := 11 * 256; outerSrcIP := hop1;
     icmpPayload := [x45; x00; x00; x28; x00; x00; x40] |}.

(** The fresh engine of scenario 1 after one [Stop] from a consumer. *)
Definition stoppedEngine : NFQueueTraceroute :=
  set_restartTimerChannel Closed
    (set_stopTimerChannel Closed
       (set_timer Returned (set_stopped true (NewNFQueueTraceroute 3 2 1)))).

(** [b] is [a] up to the [count] field. *)
Definition same_except_count (a b : NFQueueTraceroute) : Prop :=
  set_count (count a) b = a.

(** The engine's condition for the timer to stop it. *)
Definition timerStops (n : NFQueueTraceroute) : bool :=
  (ttlMax n <=? ttl n) && (ttlRepeatMax n <=? ttlRepeat n).

(** The link between the [stopped] flag, the timer goroutine and the two
    control channels that every reachable engine keeps. *)
Definition consistent (n : NFQueueTraceroute) : Prop :=
  match timer n with
  | Selecting =>
      stopped n = false /\ stopTimerChannel n = Open
      /\ restartTimerChannel n = Open
  | _ => stopped n = true
  end.

(** What holds of an engine with [1 <= ttlMax < 255] and
    [2 <= ttlRepeatMax] as long as its timer never fires. *)
Definition paced (tm rm : Z) (n : NFQueueTraceroute) : Prop :=
  ttlMax n = tm /\ ttlRepeatMax n = rm /\ 1 <= ttl n <= tm + 1
  /\ (stopped n = false ->
      responseTimedOut n = false /\ timer n = Selecting
      /\ stopTimerChannel n = Open /\ restartTimerChannel n = Open
      /\ 0 <= ttlRepeat n < rm
      /\ (ttl n = tm + 1 -> ttlRepeat n + 1 < rm)).

(** Proof steps that run the engine's methods on a destructed state. *)
Ltac reduce := cbn -[Z.eqb Z.ltb Z.leb Z.rem Z.add Z.sub int uint8].

Ltac split_ifs :=
  repeat (match goal with
          | |- context [if ?b then _ else _] => destruct b eqn:?
          end; reduce).

Ltac run_engine :=
  unfold processPacket, replyReceived, TimerExpired, nextHop, Stop, bind, get,
    modify, ret, panic, send_stopTimerChannel, send_restartTimerChannel,
    close_stopTimerChannel, close_restartTimerChannel, left_by,
    set_ttl, set_ttlRepeat, set_count, set_traceResult, set_stopped,
    set_responseTimedOut, set_stopTimerChannel, set_restartTimerChannel,
    set_timer;
  reduce.

(** A verdict that re-injects the packet with a changed TTL: a probe. *)
Definition isProbe (v : list VerdictCall) : bool :=
  match v with
  | [SetModifiedVerdict NF_REPEAT _] => true
  | _ => false
  end.

Definition probes (vs : list (list VerdictCall)) : Z :=
  Z.of_nat (List.length (filter isProbe vs)).

(** The probes an engine has left before its overrun check stops it, when
    only diverted packets drive it. *)
Definition budget (n : NFQueueTraceroute) : Z :=
  if stopped n then 0
  else (ttlMax n + 1 - ttl n) * ttlRepeatMax n
       + (ttlRepeatMax n - 1 - ttlRepeat n) - 1.

(** The engine the dispatcher hands a packet of [flow] to: the registered
    one, or a new one with the observer's options. *)
Definition engineFor (o : NFQueueTraceObserver) (flow : flowKey)
  : NFQueueTraceroute :=
  match GetFlowTrace (flowTracker o) flow with
  | Some n => n
  | None =>
      NewNFQueueTraceroute (optTtlMax (options o))
        (optTtlRepeatMax (options o)) (optMangleFreq (options o))
  end.

(** The inner IPv4 header and first 8 TCP bytes of [samplePacket], as an
    ICMP time-exceeded message quotes them (RFC 792). *)
Definition rfc792Payload : list byte :=
  [x45; x00; x00; x28; x00; x00; x40; x00; x01; x06; x00; x00;
   xc0; xa8; x01; x0a; x0a; x09; x08; x07;
   x9c; x40; x0a; x6a; x00; x00; x00; x01].

Definition rfc792Frame : IcmpFrame :=
  {| icmpTypeCode := 11 * 256; outerSrcIP := hop1;
     icmpPayload := rfc792Payload |}.

(** The observer of [main] after the first packet of the sample flow. *)
Definition trackingObserver : NFQueueTraceObserver :=
  set_flowTracker
    [((NetworkFlow sampleIP, TransportFlow sampleTCP),
      set_count 2 (NewNFQueueTraceroute 40 3 6))]
    (NewNFQueueTraceObserver sampleOptions).

(** The engine [NewNFQueueTraceroute 1 1 1] after one reply: stopped by it. *)
Definition repliedEngine : NFQueueTraceroute :=
  set_restartTimerChannel Closed
    (set_stopTimerChannel Closed
       (set_timer Returned
          (set_stopped true
             (set_traceResult [(1, [hop1])] (NewNFQueueTraceroute 1 1 1))))).

(** The first 20 bytes of [rfc792Payload]: the quoted IPv4 header alone. *)
Definition headerOnlyPayload : list byte :=
  [x45; x00; x00; x28; x00; x00; x40; x00; x01; x06; x00; x00;
   xc0; xa8; x01; x0a; x0a; x09; x08; x07].

(* ================================================================= *)
(** * Properties *)

(** ** The monad *)

Lemma bind_inv_Returns {S A B} (m : M S A) (k : A -> M S B) s b s2 :
  bind m k s = Returns b s2 ->
  exists a s1, m s = Returns a s1 /\ k a s1 = Returns b s2.
Proof.
  unfold bind. destruct (m s) as [a s1| |]; try discriminate.
  intros Hk. exists a, s1. split; [reflexivity | exact Hk].
Qed.

(** ** [Stop] *)

Lemma Stop_cases (who : Caller) (n : NFQueueTraceroute) :
  Stop who n =
    match stopTimerChannel n with
    | Closed => Panics SendOnClosedChannel
    | Open =>
        match timer n, who with
        | Selecting, FromConsumer =>
            match restartTimerChannel n with
            | Open =>
                Returns tt
                  (set_restartTimerChannel Closed
                     (set_stopTimerChannel Closed
                        (set_timer Returned (set_stopped true n))))
            | Closed => Panics CloseOfClosedChannel
            end
        | Selecting, FromTimer =>
            Blocks (set_timer StuckInStop (set_stopped true n))
        | _, _ => Blocks (set_stopped true n)
        end
    end.
Proof.
  destruct n as [t tm r rm mf c tr st rto [|] [|] [| |]], who; reflexivity.
Qed.

Lemma Stop_sets_stopped (who : Caller) (n n' : NFQueueTraceroute) :
  left_by (Stop who n) = Some n' -> stopped n' = true.
Proof.
  rewrite Stop_cases.
  destruct (stopTimerChannel n); [|discriminate].
  destruct (timer n), who; cbn;
    try (intros [= <-]; reflexivity).
  destruct (restartTimerChannel n); cbn; [|discriminate].
  intros [= <-]. reflexivity.
Qed.

(** A [Stop] that returned has closed the stop channel. *)
Lemma Stop_Returns_closes (who : Caller) (n n' : NFQueueTraceroute) :
  Stop who n = Returns tt n' ->
  stopTimerChannel n' = Closed /\ restartTimerChannel n' = Closed.
Proof.
  rewrite Stop_cases.
  destruct (stopTimerChannel n); [|discriminate].
  destruct (timer n), who; try discriminate.
  destruct (restartTimerChannel n); [|discriminate].
  intros [= <-]. split; reflexivity.
Qed.

(** Stopping again after a [Stop] that returned panics, whoever calls. *)
Lemma Stop_twice_panics (who who' : Caller) (n n' : NFQueueTraceroute) :
  Stop who n = Returns tt n' ->
  Stop who' n' = Panics SendOnClosedChannel.
Proof.
  intros Hs. apply Stop_Returns_closes in Hs as [Hc _].
  rewrite Stop_cases, Hc. reflexivity.
Qed.

(** [Stop] called by the timer goroutine never returns. *)
Lemma Stop_FromTimer_never_returns (n n' : NFQueueTraceroute) :
  Stop FromTimer n <> Returns tt n'.
Proof.
  rewrite Stop_cases.
  destruct (stopTimerChannel n); [|discriminate].
  destruct (timer n); discriminate.
Qed.

(** ** [processPacket] on a stopped engine *)

Lemma processPacket_stopped {codec : PacketCodec} (p : NFPacket)
  (n : NFQueueTraceroute) :
  stopped n = true -> processPacket p n = Returns ACCEPT n.
Proof.
  intros Hs. unfold processPacket, bind, get. rewrite Hs. reflexivity.
Qed.

Lemma run_stopped {codec : PacketCodec} (ps : list NFPacket)
  (n : NFQueueTraceroute) :
  stopped n = true ->
  run (map Diverted ps) n = Returns (map (fun _ => ACCEPT) ps) n.
Proof.
  intros Hs. induction ps as [|p ps IH]; [reflexivity|].
  cbn [map run enabled handle]. rewrite (processPacket_stopped p n Hs).
  unfold bind. rewrite IH. reflexivity.
Qed.

(** C4. After [Stop] has been called on an engine (whether the call
    returned or left its goroutine blocked), every later [processPacket]
    makes the single verdict call ACCEPT, and the engine is left as it was
    in every field but [count]. *)
Theorem processPacket_after_Stop {codec : PacketCodec} (who : Caller)
  (n n1 : NFQueueTraceroute) (ps : list NFPacket) :
  left_by (Stop who n) = Some n1 ->
  exists n2,
    run (map Diverted ps) n1 = Returns (map (fun _ => ACCEPT) ps) n2
    /\ same_except_count n1 n2.
Proof.
  intros Hstop. exists n1. split.
  - apply run_stopped. exact (Stop_sets_stopped who n n1 Hstop).
  - unfold same_except_count. destruct n1; reflexivity.
Qed.

Lemma processPacket_after_Stop_witness :
  left_by (Stop FromConsumer (NewNFQueueTraceroute 3 2 1)) = Some stoppedEngine
  /\ exists n2,
       run (codec := wireCodec) (map Diverted [samplePacket; samplePacket])
         stoppedEngine
       = Returns [ACCEPT; ACCEPT] n2
       /\ same_except_count stoppedEngine n2.
Proof.
  split; [reflexivity|].
  apply (processPacket_after_Stop (codec := wireCodec) FromConsumer
           (NewNFQueueTraceroute 3 2 1) stoppedEngine
           [samplePacket; samplePacket]).
  reflexivity.
Defined.

(** ** The engine, its timer and its channels stay consistent *)

Lemma processPacket_consistent {codec : PacketCodec} (p : NFPacket)
  (n n' : NFQueueTraceroute) :
  consistent n ->
  left_by (processPacket p n) = Some n' ->
  consistent n'.
Proof.
  destruct n as [t tm r rm mf c tr st rto sc rc ti].
  unfold consistent; cbn.
  destruct ti; cbn.
  - intros (-> & -> & ->). run_engine. split_ifs; cbn;
      try discriminate; intros [= <-]; cbn; auto.
  - intros ->. run_engine. intros [= <-]. reflexivity.
  - intros ->. run_engine. intros [= <-]. reflexivity.
Qed.

Lemma TimerExpired_consistent (n n' : NFQueueTraceroute) :
  consistent n ->
  timer n = Selecting ->
  left_by (TimerExpired n) = Some n' ->
  consistent n'.
Proof.
  destruct n as [t tm r rm mf c tr st rto sc rc ti].
  unfold consistent; cbn. intros Hc ->. destruct Hc as (-> & -> & ->).
  run_engine. split_ifs; cbn; intros [= <-]; cbn; auto.
Qed.

Lemma replyReceived_consistent (ip : IP) (n n' : NFQueueTraceroute) :
  consistent n ->
  left_by (replyReceived ip n) = Some n' ->
  consistent n'.
Proof.
  destruct n as [t tm r rm mf c tr st rto sc rc ti].
  unfold consistent; cbn.
  destruct ti; cbn.
  - intros (-> & -> & ->). run_engine. split_ifs; cbn;
      intros [= <-]; cbn; auto.
  - intros ->. run_engine. split_ifs; destruct sc; cbn;
      try discriminate; intros [= <-]; cbn; auto.
  - intros ->. run_engine. split_ifs; destruct sc; cbn;
      try discriminate; intros [= <-]; cbn; auto.
Qed.

Lemma left_by_bind_ret {S A B} (m : M S A) (f : A -> B) (s : S) :
  left_by (bind m (fun a => ret (f a)) s) = left_by (m s).
Proof. unfold bind, ret. destruct (m s); reflexivity. Qed.

Lemma reachable_consistent {codec : PacketCodec} (n : NFQueueTraceroute) :
  reachable n -> consistent n.
Proof.
  induction 1 as [a b c | n n' e Hr IH Hen Hstep].
  - cbn. auto.
  - destruct e as [p | | ip]; cbn [handle] in Hstep.
    + exact (processPacket_consistent p n n' IH Hstep).
    + rewrite left_by_bind_ret in Hstep.
      cbn in Hen. destruct (timer n) eqn:Ht; try discriminate.
      exact (TimerExpired_consistent n n' IH Ht Hstep).
    + rewrite left_by_bind_ret in Hstep.
      exact (replyReceived_consistent ip n n' IH Hstep).
Qed.

(** ** The response timer *)

(** C8. When the response timer of an engine fires (its goroutine is in
    the select): if [ttl >= ttlMax] and [ttlRepeat >= ttlRepeatMax] the
    engine is left stopped; otherwise the call returns with
    [responseTimedOut] set and the engine not stopped. *)
Theorem TimerExpired_stops_or_times_out {codec : PacketCodec}
  (n : NFQueueTraceroute) :
  reachable n ->
  timer n = Selecting ->
  if timerStops n
  then exists n', left_by (TimerExpired n) = Some n' /\ stopped n' = true
  else exists n', TimerExpired n = Returns tt n'
                  /\ responseTimedOut n' = true /\ stopped n' = false.
Proof.
  intros Hr Ht. pose proof (reachable_consistent n Hr) as Hc.
  unfold consistent in Hc. rewrite Ht in Hc. destruct Hc as (Hs & Hsc & Hrc).
  unfold timerStops.
  destruct n as [t tm r rm mf c tr st rto sc rc ti]. cbn in *. subst.
  run_engine.
  destruct ((tm <=? t) && (rm <=? r)); cbn; eexists; repeat split.
Qed.

Lemma TimerExpired_stops_or_times_out_witness :
  timer (NewNFQueueTraceroute 3 2 1) = Selecting
  /\ exists n', TimerExpired (NewNFQueueTraceroute 3 2 1) = Returns tt n'
                /\ responseTimedOut n' = true /\ stopped n' = false.
Proof.
  split; [reflexivity|].
  apply (TimerExpired_stops_or_times_out (codec := wireCodec)
           (NewNFQueueTraceroute 3 2 1)).
  - apply reachable_new.
  - reflexivity.
Defined.

(** ** Bytes and big-endian ports *)

Lemma byteZ_range (b : byte) : 0 <= byteZ b < 256.
Proof. destruct b; cbv; split; congruence. Qed.

Lemma Zbyte_byteZ (b : byte) : Zbyte (byteZ b) = b.
Proof. destruct b; reflexivity. Qed.

Lemma land_low_shifted (a b : Z) :
  0 <= b < 256 -> Z.land b (Z.shiftl a 8) = 0.
Proof.
  intros Hb. apply Z.bits_inj'. intros i Hi.
  rewrite Z.land_spec, Z.bits_0.
  destruct (Z.lt_ge_cases i 8) as [Hlt | Hge].
  - rewrite (Z.shiftl_spec_low a 8 i Hlt). apply andb_false_r.
  - replace b with (b mod 2 ^ 8) by (apply Z.mod_small; lia).
    rewrite Z.mod_pow2_bits_high by lia. reflexivity.
Qed.

(** The source's [b[1] | b[0]<<8] is the big-endian number of the pair. *)
Lemma Uint16_be16 (b0 b1 : byte) :
  Z.lor (byteZ b1) (Z.shiftl (byteZ b0) 8) = be16 b0 b1.
Proof.
  pose proof (byteZ_range b1) as H1.
  rewrite <- Z.lxor_lor by (apply land_low_shifted; exact H1).
  rewrite <- Z.add_nocarry_lxor by (apply land_low_shifted; exact H1).
  rewrite Z.shiftl_mul_pow2 by lia. unfold be16.
  change (2 ^ 8) with 256. lia.
Qed.

Lemma Zbyte_high (b0 b1 : byte) : Zbyte (Z.shiftr (be16 b0 b1) 8) = b0.
Proof.
  pose proof (byteZ_range b1) as H1.
  rewrite Z.shiftr_div_pow2 by lia. change (2 ^ 8) with 256. unfold be16.
  replace ((256 * byteZ b0 + byteZ b1) / 256) with (byteZ b0).
  - apply Zbyte_byteZ.
  - apply (Z.div_unique _ 256 (byteZ b0) (byteZ b1)); lia.
Qed.

Lemma Zbyte_low (b0 b1 : byte) : Zbyte (be16 b0 b1) = b1.
Proof.
  pose proof (byteZ_range b1) as H1.
  transitivity (Zbyte (byteZ b1)); [|apply Zbyte_byteZ].
  unfold Zbyte.
  replace (Z.land (be16 b0 b1) 255) with (Z.land (byteZ b1) 255);
    [reflexivity|].
  change 255 with (Z.ones 8). rewrite !Z.land_ones by lia.
  change (2 ^ 8) with 256. unfold be16.
  rewrite (Z.mod_small (byteZ b1)) by lia.
  apply (Z.mod_unique _ 256 (byteZ b0) (byteZ b1)); lia.
Qed.

(** A TCP port endpoint holds the two bytes of the port, high byte first. *)
Lemma NewTCPPortEndpoint_be16 (b0 b1 : byte) :
  NewTCPPortEndpoint (be16 b0 b1) = NewEndpoint EndpointTCPPort [b0; b1].
Proof.
  unfold NewTCPPortEndpoint. rewrite Zbyte_high, Zbyte_low. reflexivity.
Qed.

Lemma getTCPFlowFromTCPHead_ports (t0 t1 t2 t3 : byte) (rest : list byte) :
  getTCPFlowFromTCPHead (t0 :: t1 :: t2 :: t3 :: rest)
  = Ok (NewFlow EndpointTCPPort [t0; t1] [t2; t3]).
Proof.
  unfold getTCPFlowFromTCPHead, slice.
  cbn [List.length].
  replace (Z.of_nat (S (S (S (S (List.length rest))))) <? 2) with false
    by (symmetry; apply Z.ltb_ge; lia).
  replace (Z.of_nat (S (S (S (S (List.length rest))))) <? 4) with false
    by (symmetry; apply Z.ltb_ge; lia).
  change (Z.to_nat (2 - 0)) with 2%nat. change (Z.to_nat 0) with 0%nat.
  change (Z.to_nat (4 - 2)) with 2%nat. change (Z.to_nat 2) with 2%nat.
  cbn -[byteZ Z.lor Z.shiftl NewTCPPortEndpoint].
  rewrite !Uint16_be16, !NewTCPPortEndpoint_be16. reflexivity.
Qed.

(** ** The flow key of an ICMP payload *)

Lemma length8 {A} (l : list A) :
  List.length l = 8%nat ->
  exists a b c d e f g h, l = [a; b; c; d; e; f; g; h].
Proof.
  intros H.
  do 8 (destruct l as [|? l]; [discriminate|]).
  destruct l; [|discriminate]. repeat eexists.
Qed.

Lemma slice_tail8 (packet : list byte) :
  (8 <= List.length packet)%nat ->
  slice packet (Z.of_nat (List.length packet) - 8) (Z.of_nat (List.length packet))
  = Ok (skipn (List.length packet - 8) packet).
Proof.
  intros Hlen. unfold slice.
  replace (Z.of_nat (List.length packet) - 8 <? 0) with false
    by (symmetry; apply Z.ltb_ge; lia).
  replace (Z.of_nat (List.length packet) <? Z.of_nat (List.length packet) - 8)
    with false by (symmetry; apply Z.ltb_ge; lia).
  rewrite Z.ltb_irrefl. cbn [orb].
  replace (Z.to_nat (Z.of_nat (List.length packet) - 8))
    with (List.length packet - 8)%nat by lia.
  replace (Z.to_nat (Z.of_nat (List.length packet)
                     - (Z.of_nat (List.length packet) - 8))) with 8%nat by lia.
  rewrite firstn_all2; [reflexivity|].
  rewrite length_skipn. lia.
Qed.

(** The fallback of [getPacketFlow] cannot take its slice from a payload
    of fewer than 8 bytes. *)
Lemma getPacketFlow_short {codec : PacketCodec} (packet : list byte) :
  decodeErr (DecodeLayers packet) = true ->
  (List.length packet < 8)%nat ->
  getPacketFlow packet = Raise SliceBoundsOutOfRange.
Proof.
  intros Herr Hlen. unfold getPacketFlow. rewrite Herr. unfold slice.
  replace (Z.of_nat (List.length packet) - 8 <? 0) with true
    by (symmetry; apply Z.ltb_lt; lia).
  reflexivity.
Qed.

(** C7 (amended). For every payload of at least 8 bytes on which the
    IPv4+TCP decode returns an error, [getPacketFlow] yields a flow key
    whose TCP flow is built from the last 8 bytes of the payload read as the
    head of a TCP header (source port the big-endian number of bytes 0..2,
    destination port that of bytes 2..4), and whose IPv4 flow is that of
    the IPv4 header as the decoder left it (no endpoints for the zero
    header). *)
Theorem getPacketFlow_fallback {codec : PacketCodec} (packet : list byte) :
  decodeErr (DecodeLayers packet) = true ->
  (8 <= List.length packet)%nat ->
  exists front t0 t1 t2 t3 t4 t5 t6 t7,
    packet = front ++ [t0; t1; t2; t3; t4; t5; t6; t7]
    /\ getPacketFlow packet
       = Ok (NetworkFlow (decodedIP (DecodeLayers packet)),
             NewFlow EndpointTCPPort [t0; t1] [t2; t3])
    /\ FlowFromEndpoints (NewTCPPortEndpoint (be16 t0 t1))
                         (NewTCPPortEndpoint (be16 t2 t3))
       = Some (NewFlow EndpointTCPPort [t0; t1] [t2; t3])
    /\ (decodedIP (DecodeLayers packet) = zeroIPv4 ->
        NetworkFlow (decodedIP (DecodeLayers packet))
        = NewFlow EndpointIPv4 [] []).
Proof.
  intros Herr Hlen.
  destruct (length8 (skipn (List.length packet - 8) packet))
    as (t0 & t1 & t2 & t3 & t4 & t5 & t6 & t7 & Htail).
  { rewrite length_skipn. lia. }
  exists (firstn (List.length packet - 8) packet), t0, t1, t2, t3, t4, t5, t6, t7.
  repeat split.
  - rewrite <- Htail. symmetry. apply firstn_skipn.
  - unfold getPacketFlow. rewrite Herr, (slice_tail8 packet Hlen), Htail.
    cbn [bindC]. rewrite getTCPFlowFromTCPHead_ports. reflexivity.
  - rewrite !NewTCPPortEndpoint_be16. reflexivity.
  - intros ->. reflexivity.
Qed.

Lemma getPacketFlow_fallback_witness :
  decodeErr (DecodeLayers (PacketCodec := wireCodec) shortRemnant) = true
  /\ (8 <= List.length shortRemnant)%nat
  /\ exists front t0 t1 t2 t3 t4 t5 t6 t7,
       shortRemnant = front ++ [t0; t1; t2; t3; t4; t5; t6; t7]
       /\ getPacketFlow (codec := wireCodec) shortRemnant
          = Ok (NetworkFlow
                  (decodedIP (DecodeLayers (PacketCodec := wireCodec) shortRemnant)),
                NewFlow EndpointTCPPort [t0; t1] [t2; t3])
       /\ FlowFromEndpoints (NewTCPPortEndpoint (be16 t0 t1))
                            (NewTCPPortEndpoint (be16 t2 t3))
          = Some (NewFlow EndpointTCPPort [t0; t1] [t2; t3])
       /\ (decodedIP (DecodeLayers (PacketCodec := wireCodec) shortRemnant)
           = zeroIPv4 ->
           NetworkFlow
             (decodedIP (DecodeLayers (PacketCodec := wireCodec) shortRemnant))
           = NewFlow EndpointIPv4 [] []).
Proof.
  split; [reflexivity|]. split; [cbn; lia|].
  apply (getPacketFlow_fallback (codec := wireCodec) shortRemnant).
  - reflexivity.
  - cbn. lia.
Defined.

(** C7, as stated, fails: the 20-byte payload [headerOnlyPayload], a bare
    IPv4 header, decodes without an error and without a TCP layer; the
    fallback is not taken, and the key carries the empty TCP flow of the
    zero TCP struct and not bytes 12..16 of the payload. *)
Lemma getPacketFlow_incomplete_counterexample :
  ~ (forall (codec : PacketCodec) (packet : list byte),
        decodeErr (DecodeLayers packet) = true
        \/ decodedTCP (DecodeLayers packet) = zeroTCP ->
        (8 <= List.length packet)%nat ->
        exists front t0 t1 t2 t3 t4 t5 t6 t7,
          packet = front ++ [t0; t1; t2; t3; t4; t5; t6; t7]
          /\ getPacketFlow packet
             = Ok (NetworkFlow (decodedIP (DecodeLayers packet)),
                   NewFlow EndpointTCPPort [t0; t1] [t2; t3])).
Proof.
  intros H.
  destruct (H wireCodec headerOnlyPayload)
    as (front & t0 & t1 & t2 & t3 & t4 & t5 & t6 & t7 & _ & Hk).
  - right. reflexivity.
  - cbn. lia.
  - vm_compute in Hk. discriminate.
Qed.

(** ** Scenario 1 of the spec on the engine *)

(** C1. With [ttlMax = 3], [ttlRepeatMax = 2], [mangleFreq = 1] the fresh
    engine answers six diverted packets with REPEAT at TTL 2, 2, 3, 3, 4 and
    then ACCEPT: TTL 1 is never probed. With the replies of the scenario the
    second reply at TTL 3 stops the engine, packets five and six are
    accepted, and the next reply panics in the second [Stop]. *)
Theorem scenario1_verdicts :
  let n0 := NewNFQueueTraceroute 3 2 1 in
  let P := Diverted samplePacket in
  let R := REPEAT (codec := wireCodec) samplePacket in
  (exists n,
      run (codec := wireCodec) [P; P; P; P; P; P] n0
      = Returns [R 2; R 2; R 3; R 3; R 4; ACCEPT] n
      /\ stopped n = true)
  /\ (exists n,
         run (codec := wireCodec)
           [P; P; Reply hop1; Reply hop1; P; P; Reply hop2; Reply hop2; P; P] n0
         = Returns [R 2; R 2; R 3; R 3; ACCEPT; ACCEPT] n
         /\ traceResult n = [(2, [hop1; hop1]); (3, [hop2; hop2])]
         /\ stopped n = true)
  /\ run (codec := wireCodec)
       [P; P; Reply hop1; Reply hop1; P; P; Reply hop2; Reply hop2; P; P;
        Reply hop3] n0
     = Panics SendOnClosedChannel
  /\ R 2 <> R 1.
Proof.
  cbv zeta. repeat split.
  - eexists. split; vm_compute; reflexivity.
  - eexists. split; [|split]; vm_compute; reflexivity.
  - vm_compute. discriminate.
Qed.

(** ** The bound on [ttl] *)

(** C2. The [ttl] of an engine passes [ttlMax + 1] when the timer fires
    while it is at [ttlMax + 1], and it falls from 255 to 0 when [ttlMax]
    is 255. *)
Theorem ttl_bound_broken :
  let P := Diverted samplePacket in
  ttl_after (codec := wireCodec) [P] (NewNFQueueTraceroute 1 2 1) = Some 2
  /\ ttl_after (codec := wireCodec) [P; TimerFires; P]
       (NewNFQueueTraceroute 1 2 1) = Some 3
  /\ ttl_after (codec := wireCodec) (repeat P 507)
       (NewNFQueueTraceroute 255 2 1) = Some 255
  /\ ttl_after (codec := wireCodec) (repeat P 509)
       (NewNFQueueTraceroute 255 2 1) = Some 0.
Proof.
  cbv zeta. repeat split; vm_compute; reflexivity.
Qed.

(** ** Verdicts of the dispatcher *)

Lemma processPacket_one_call {codec : PacketCodec} (p : NFPacket)
  (n n' : NFQueueTraceroute) (vs : list VerdictCall) :
  processPacket p n = Returns vs n' -> List.length vs = 1%nat.
Proof.
  destruct n as [t tm r rm mf c tr [|] rto [|] [|] [| |]];
    run_engine; split_ifs; try discriminate;
    intros H; inversion H; reflexivity.
Qed.

Lemma observerProcessPacket_ignores {codec : PacketCodec} (p : NFPacket)
  (o : NFQueueTraceObserver) :
  PacketLayer (Packet p) LayerTypeIPv4 = None
  \/ PacketLayer (Packet p) LayerTypeTCP = None ->
  observerProcessPacket p o = Returns [] o.
Proof.
  unfold observerProcessPacket.
  intros [H | H]; rewrite H.
  - reflexivity.
  - destruct (PacketLayer (Packet p) LayerTypeIPv4) as [[ip | tcp | b]|];
      reflexivity.
Qed.

Lemma onEngine_inv_Returns {A} (flow : flowKey) (m : M NFQueueTraceroute A)
  (o o' : NFQueueTraceObserver) (a : A) :
  onEngine flow m o = Returns a o' ->
  exists n n', GetFlowTrace (flowTracker o) flow = Some n
               /\ m n = Returns a n'.
Proof.
  unfold onEngine.
  destruct (GetFlowTrace (flowTracker o) flow) as [n|]; [|discriminate].
  destruct (m n) as [a1 n1| |n1] eqn:Hm; try discriminate.
  intros H. inversion H; subst. exists n, n1. split; [reflexivity | exact Hm].
Qed.

(** A diverted IPv4+TCP packet that the dispatcher hands back has received
    exactly one verdict call. *)
Lemma observerProcessPacket_one_call {codec : PacketCodec} (p : NFPacket)
  (ip : IPv4) (tcp : TCP) (o o' : NFQueueTraceObserver)
  (vs : list VerdictCall) :
  PacketLayer (Packet p) LayerTypeIPv4 = Some (IPv4Layer ip) ->
  PacketLayer (Packet p) LayerTypeTCP = Some (TCPLayer tcp) ->
  observerProcessPacket p o = Returns vs o' ->
  List.length vs = 1%nat.
Proof.
  intros Hip Htcp. unfold observerProcessPacket. rewrite Hip, Htcp.
  intros H.
  apply bind_inv_Returns in H as (o1 & o2 & _ & H).
  apply bind_inv_Returns in H as (u & o3 & _ & H).
  apply onEngine_inv_Returns in H as (n & n' & _ & H).
  exact (processPacket_one_call p n n' vs H).
Qed.

(** C3. A diverted datagram with an IPv4 layer and no TCP layer leaves the
    dispatcher without any verdict call; no engine is created for it. *)
Theorem observer_ignored_packet_gets_no_verdict :
  observerProcessPacket (codec := wireCodec) udpPacket
    (NewNFQueueTraceObserver sampleOptions)
  = Returns [] (NewNFQueueTraceObserver sampleOptions)
  /\ flowTracker (NewNFQueueTraceObserver sampleOptions) = []
  /\ List.length (A := VerdictCall) [] <> 1%nat.
Proof.
  repeat split. cbn. discriminate.
Qed.

(** ** [Stop] twice, and [Stop] from the timer *)

(** C5. On a fresh engine the first [Stop] from a consumer returns and the
    second panics on the closed channel; a [Stop] from the timer goroutine,
    as the expiry at [ttl >= ttlMax] makes it, blocks that goroutine for
    ever; three replies at [ttl = ttlMax = 2] with [ttlRepeatMax = 2] end in
    the panic. *)
Theorem Stop_not_idempotent :
  let n0 := NewNFQueueTraceroute 3 2 1 in
  (exists n1,
      Stop FromConsumer n0 = Returns tt n1
      /\ Stop FromConsumer n1 = Panics SendOnClosedChannel)
  /\ (exists n2, Stop FromTimer n0 = Blocks n2)
  /\ (exists n3, TimerExpired (NewNFQueueTraceroute 1 1 1) = Blocks n3)
  /\ run (codec := wireCodec)
       [Diverted samplePacket; Reply hop1; Reply hop1; Reply hop1]
       (NewNFQueueTraceroute 2 2 1)
     = Panics SendOnClosedChannel.
Proof.
  cbv zeta. repeat split.
  - eexists. split; reflexivity.
  - eexists. reflexivity.
  - eexists. reflexivity.
Qed.

(** ** Serialisation failure on the mangle path *)

(** C6 (amended). When the serialisation of the mangled packet fails on the
    mangle path (the engine is not stopped, the packet is a mangle
    candidate and the engine is not stopped by it), the engine still makes
    the REPEAT verdict call, with no replacement bytes, and counts the
    packet. *)
Theorem processPacket_serialize_failure {codec : PacketCodec} (p : NFPacket)
  (n n' : NFQueueTraceroute) (vs : list VerdictCall) :
  stopped n = false ->
  Z.rem (count n) (mangleFreq n) = 0 ->
  processPacket p n = Returns vs n' ->
  stopped n' = false ->
  serializeWithTTL (Packet p) (ttl n') = None ->
  vs = [SetModifiedVerdict NF_REPEAT None]
  /\ count n' = int (count n + 1).
Proof.
  destruct n as [t tm r rm mf c tr st rto [|] [|] [| |]]; cbn;
    intros -> Hrem; run_engine; rewrite Hrem; reduce;
    split_ifs; try discriminate;
    intros H; inversion H; subst; cbn; try discriminate;
    intros _ ->; split; reflexivity.
Qed.

Lemma processPacket_serialize_failure_witness :
  stopped (NewNFQueueTraceroute 3 2 1) = false
  /\ Z.rem (count (NewNFQueueTraceroute 3 2 1))
       (mangleFreq (NewNFQueueTraceroute 3 2 1)) = 0
  /\ serializeWithTTL (codec := failingCodec) (Packet samplePacket) 2 = None
  /\ [SetModifiedVerdict NF_REPEAT
        (serializeWithTTL (codec := failingCodec) (Packet samplePacket) 2)]
     = [SetModifiedVerdict NF_REPEAT None]
  /\ count (set_count 2
              (set_ttlRepeat 0 (set_ttl 2 (NewNFQueueTraceroute 3 2 1))))
     = int (count (NewNFQueueTraceroute 3 2 1) + 1).
Proof.
  split; [reflexivity|]. split; [reflexivity|]. split; [reflexivity|].
  apply (processPacket_serialize_failure (codec := failingCodec) samplePacket
           (NewNFQueueTraceroute 3 2 1)); reflexivity.
Defined.

(** C6, as stated, fails: with a serialiser that reports an error, the
    first packet of a fresh engine with [mangleFreq = 1] is a mangle
    candidate, and its verdict call is REPEAT with a nil replacement, not
    ACCEPT. *)
Lemma processPacket_serialize_failure_counterexample :
  ~ (forall (codec : PacketCodec) (p : NFPacket) (n n' : NFQueueTraceroute)
            (vs : list VerdictCall),
        stopped n = false ->
        Z.rem (count n) (mangleFreq n) = 0 ->
        processPacket p n = Returns vs n' ->
        stopped n' = false ->
        serializeWithTTL (Packet p) (ttl n') = None ->
        vs = ACCEPT).
Proof.
  intros H.
  specialize (H failingCodec samplePacket (NewNFQueueTraceroute 3 2 1)
                (set_count 2
                   (set_ttlRepeat 0 (set_ttl 2 (NewNFQueueTraceroute 3 2 1))))
                [SetModifiedVerdict NF_REPEAT None]
                eq_refl eq_refl eq_refl eq_refl eq_refl).
  discriminate H.
Qed.

(** ** The consumer of the divertor after the observer's [Stop] *)

Lemma consumerIteration_continues {codec : PacketCodec} (c : SelectCase)
  (o o' : NFQueueTraceObserver) (ctl : LoopControl) :
  consumerIteration c o = Returns ctl o' -> ctl = NextIteration.
Proof.
  destruct c as [p|]; unfold consumerIteration, bind, ret.
  - destruct (observerProcessPacket p o); try discriminate.
    intros [= <- _]. reflexivity.
  - destruct (receive_done o) as [u o1| |]; try discriminate.
    destruct (modify _ o1) as [u2 o2| |]; try discriminate.
    destruct (close_done o2); try discriminate.
    intros [= <- _]. reflexivity.
Qed.

(** The loop of [Start] has no way out: whatever its [select] takes, it
    never leaves the [for]. *)
Lemma consumerLoop_never_exits {codec : PacketCodec}
  (schedule : list SelectCase) (o o' : NFQueueTraceObserver) :
  consumerLoop schedule o <> Returns LoopExited o'.
Proof.
  revert o. induction schedule as [|c rest IH]; intros o.
  - discriminate.
  - cbn [consumerLoop]. destruct (ready o c); [|apply IH].
    unfold bind. destruct (consumerIteration c o) as [ctl o1| |] eqn:Hit;
      try discriminate.
    rewrite (consumerIteration_continues c o o1 ctl Hit). apply IH.
Qed.

(** C9. After the observer's [Stop], the consumer takes the [done] case,
    closes the divertor and the channel, and is back in its [select]: the
    [done] case is ready again, a further packet is still processed, and
    taking [done] again panics in [close]. *)
Theorem consumer_survives_Stop :
  let o0 := NewNFQueueTraceObserver sampleOptions in
  exists o1 o2 o3,
    observerStop o0 = Returns tt o1
    /\ consumerLoop (codec := wireCodec) [CaseDone] o1 = Returns NextIteration o2
    /\ nfqCloses o2 = 1%nat /\ done o2 = Closed
    /\ ready o2 CaseDone = true
    /\ consumerLoop (codec := wireCodec) [CaseDone; CasePacket samplePacket] o1
       = Returns NextIteration o3
    /\ flowTracker o3 <> []
    /\ consumerLoop (codec := wireCodec) [CaseDone; CaseDone] o1
       = Panics CloseOfClosedChannel.
Proof.
  cbv zeta. do 3 eexists. repeat split.
  vm_compute. discriminate.
Qed.

(** ** A short ICMP payload *)

(** C10. On a time-exceeded frame whose 7-byte payload does not decode,
    the extraction of the flow key panics in its last-8-bytes slice, and
    with it the sniffer loop. *)
Theorem getPacketFlow_short_payload_panics :
  decodeErr (DecodeLayers (PacketCodec := wireCodec) (icmpPayload truncatedFrame)) = true
  /\ getPacketFlow (codec := wireCodec) (icmpPayload truncatedFrame)
     = Raise SliceBoundsOutOfRange
  /\ receiveReply (codec := wireCodec) truncatedFrame
       (NewNFQueueTraceObserver sampleOptions)
     = Panics SliceBoundsOutOfRange.
Proof.
  repeat split.
Qed.

(** ** What the overrun check does achieve *)

Lemma int_small (z : Z) : - 2 ^ 63 <= z < 2 ^ 63 -> int z = z.
Proof. intros H. unfold int. rewrite Z.mod_small; lia. Qed.

Lemma uint8_small (z : Z) : 0 <= z < 256 -> uint8 z = z.
Proof. intros H. unfold uint8. apply Z.mod_small. exact H. Qed.

Lemma processPacket_paced {codec : PacketCodec} (tm rm : Z) (p : NFPacket)
  (n n' : NFQueueTraceroute) :
  1 <= tm < 255 -> 2 <= rm < 2 ^ 63 ->
  paced tm rm n ->
  left_by (processPacket p n) = Some n' ->
  paced tm rm n' /\ ttl n <= ttl n'.
Proof.
  intros Htm Hrm.
  destruct n as [t tm' r rm' mf c tr st rto sc rc ti].
  unfold paced; cbn. intros (-> & -> & Ht & Hns).
  destruct st.
  - run_engine. intros [= <-]. cbn. repeat split; intros; try lia; try discriminate.
  - destruct (Hns eq_refl) as (-> & -> & -> & -> & Hr & Hover). clear Hns.
    assert (E1 : int (r + 1) = r + 1) by (apply int_small; lia).
    assert (E2 : int (rm - 1) = rm - 1) by (apply int_small; lia).
    assert (Hu : t <= tm -> uint8 (t + 1) = t + 1)
      by (intros; apply uint8_small; lia).
    run_engine.
    split_ifs; rewrite ?E1, ?E2 in *;
      repeat match goal with
             | H : (_ && _) = true |- _ => apply andb_true_iff in H as [? ?]
             | H : (_ =? _) = true |- _ => apply Z.eqb_eq in H
             | H : (_ =? _) = false |- _ => apply Z.eqb_neq in H
             | H : (_ <? _) = true |- _ => apply Z.ltb_lt in H
             | H : (_ <? _) = false |- _ => apply Z.ltb_ge in H
             end;
      try discriminate;
      try (intros [= <-]; cbn;
           first [ rewrite Hu in * by lia | idtac ];
           repeat split; intros; try discriminate; try lia).
Qed.

Lemma NewNFQueueTraceroute_paced (tm rm mf : Z) :
  1 <= tm -> 2 <= rm -> paced tm rm (NewNFQueueTraceroute tm rm mf).
Proof.
  intros Htm Hrm. unfold paced; cbn. repeat split; intros; lia.
Qed.

(** With [1 <= ttlMax < 255] and [2 <= ttlRepeatMax], diverted packets
    alone (no timer expiry, no reply) never lower [ttl] and never take it
    past [ttlMax + 1], from whatever point of the run one starts. *)
Lemma run_packets_paced {codec : PacketCodec} (tm rm : Z)
  (ps : list NFPacket) (n n' : NFQueueTraceroute) :
  1 <= tm < 255 -> 2 <= rm < 2 ^ 63 ->
  paced tm rm n ->
  left_by (run (map Diverted ps) n) = Some n' ->
  paced tm rm n' /\ ttl n <= ttl n' <= tm + 1.
Proof.
  intros Htm Hrm. revert n.
  induction ps as [|p ps IH]; intros n Hn.
  - cbn. intros [= <-]. split; [exact Hn|]. destruct Hn as (_ & _ & Ht & _). lia.
  - cbn [map run enabled handle].
    destruct (processPacket p n) as [v n1| |n1] eqn:Hp.
    + rewrite left_by_bind_ret. intros Hrest.
      destruct (processPacket_paced tm rm p n n1 Htm Hrm Hn) as [Hn1 Hle].
      { rewrite Hp. reflexivity. }
      destruct (IH n1 Hn1 Hrest) as [Hn' Hle']. split; [exact Hn'|lia].
    + discriminate.
    + cbn. intros [= <-].
      destruct (processPacket_paced tm rm p n n1 Htm Hrm Hn) as [Hn1 Hle].
      { rewrite Hp. reflexivity. }
      split; [exact Hn1|]. destruct Hn1 as (_ & _ & Ht & _). lia.
Qed.

(* ================================================================= *)
(** * Further properties of the code *)

(** ** The flow tracker *)

Lemma EndpointType_eqb_eq (a b : EndpointType) :
  EndpointType_eqb a b = true <-> a = b.
Proof. destruct a, b; cbn; split; congruence. Qed.

Lemma bytes_eqb_eq (a b : list byte) : bytes_eqb a b = true <-> a = b.
Proof.
  unfold bytes_eqb. destruct (list_eq_dec byte_eq_dec a b); split; congruence.
Qed.

Lemma Flow_eqb_eq (a b : Flow) : Flow_eqb a b = true <-> a = b.
Proof.
  destruct a as [ta sa da], b as [tb sb db]. unfold Flow_eqb; cbn.
  rewrite !andb_true_iff, EndpointType_eqb_eq, !bytes_eqb_eq.
  split; [intros [[-> ->] ->]; reflexivity | intros [= -> -> ->]; auto].
Qed.

Lemma flowKey_eqb_eq (a b : flowKey) : flowKey_eqb a b = true <-> a = b.
Proof.
  destruct a as [a1 a2], b as [b1 b2]. unfold flowKey_eqb; cbn.
  rewrite andb_true_iff, !Flow_eqb_eq.
  split; [intros [-> ->]; reflexivity | intros [= -> ->]; auto].
Qed.

Lemma flowKey_eqb_refl (k : flowKey) : flowKey_eqb k k = true.
Proof. apply flowKey_eqb_eq. reflexivity. Qed.

Lemma flowKey_eqb_neq (a b : flowKey) : a <> b -> flowKey_eqb a b = false.
Proof.
  intros H. destruct (flowKey_eqb a b) eqn:E; [|reflexivity].
  apply flowKey_eqb_eq in E. contradiction.
Qed.

Lemma GetFlowTrace_AddFlow_same (f : FlowTracker) (k : flowKey)
  (n : NFQueueTraceroute) :
  GetFlowTrace (AddFlow f k n) k = Some n.
Proof.
  induction f as [|[k0 n0] f IH]; cbn.
  - rewrite flowKey_eqb_refl. reflexivity.
  - destruct (flowKey_eqb k0 k) eqn:E; cbn.
    + rewrite flowKey_eqb_refl. reflexivity.
    + rewrite E. exact IH.
Qed.

Lemma GetFlowTrace_AddFlow_other (f : FlowTracker) (k k' : flowKey)
  (n : NFQueueTraceroute) :
  k' <> k -> GetFlowTrace (AddFlow f k n) k' = GetFlowTrace f k'.
Proof.
  intros Hne. induction f as [|[k0 n0] f IH]; cbn.
  - rewrite flowKey_eqb_neq by congruence. reflexivity.
  - destruct (flowKey_eqb k0 k) eqn:E; cbn.
    + apply flowKey_eqb_eq in E. subst k0.
      rewrite !flowKey_eqb_neq by congruence. reflexivity.
    + destruct (flowKey_eqb k0 k'); [reflexivity | exact IH].
Qed.

(** X1. [AddFlow] followed by [GetFlowTrace]: the flow just added yields the
    engine just given (an earlier engine of that flow is replaced), and the
    engine of every other flow is the one it was. *)
Theorem FlowTracker_add_then_get (f : FlowTracker) (k : flowKey)
  (n : NFQueueTraceroute) :
  GetFlowTrace (AddFlow f k n) k = Some n
  /\ HasFlow (AddFlow f k n) k = true
  /\ forall k', k' <> k ->
       GetFlowTrace (AddFlow f k n) k' = GetFlowTrace f k'
       /\ HasFlow (AddFlow f k n) k' = HasFlow f k'.
Proof.
  split; [apply GetFlowTrace_AddFlow_same|]. split.
  - unfold HasFlow. rewrite GetFlowTrace_AddFlow_same. reflexivity.
  - intros k' Hne. unfold HasFlow.
    rewrite (GetFlowTrace_AddFlow_other f k k' n Hne). split; reflexivity.
Qed.

Lemma GetFlowTrace_Delete_same (f : FlowTracker) (k : flowKey) :
  GetFlowTrace (Delete f k) k = None.
Proof.
  unfold Delete. induction f as [|[k0 n0] f IH]; cbn; [reflexivity|].
  destruct (flowKey_eqb k0 k) eqn:E; cbn; [exact IH|].
  rewrite E. exact IH.
Qed.

Lemma GetFlowTrace_Delete_other (f : FlowTracker) (k k' : flowKey) :
  k' <> k -> GetFlowTrace (Delete f k) k' = GetFlowTrace f k'.
Proof.
  intros Hne. unfold Delete. induction f as [|[k0 n0] f IH]; cbn; [reflexivity|].
  destruct (flowKey_eqb k0 k) eqn:E; cbn.
  - apply flowKey_eqb_eq in E. subst k0.
    rewrite flowKey_eqb_neq by congruence. exact IH.
  - destruct (flowKey_eqb k0 k'); [reflexivity | exact IH].
Qed.

(** X2. [Delete] removes the flow, whether it was tracked or not, and
    nothing else: the flow is no longer tracked, every other flow keeps its
    engine, and adding the flow back makes it tracked again. *)
Theorem FlowTracker_delete (f : FlowTracker) (k : flowKey)
  (n : NFQueueTraceroute) :
  HasFlow (Delete f k) k = false
  /\ (forall k', k' <> k ->
        GetFlowTrace (Delete f k) k' = GetFlowTrace f k')
  /\ GetFlowTrace (AddFlow (Delete f k) k n) k = Some n
  /\ Delete (NewFlowTracker) k = NewFlowTracker.
Proof.
  split; [unfold HasFlow; rewrite GetFlowTrace_Delete_same; reflexivity|].
  split; [intros k' Hne; apply GetFlowTrace_Delete_other; exact Hne|].
  split; [apply GetFlowTrace_AddFlow_same | reflexivity].
Qed.

(** ** The result map *)

Lemma mapGet_mapSet_same (m : list (Z * list IP)) (k : Z) (v : list IP) :
  mapGet (mapSet m k v) k = v.
Proof.
  induction m as [|[k0 v0] m IH]; cbn.
  - rewrite Z.eqb_refl. reflexivity.
  - destruct (k0 =? k) eqn:E; cbn.
    + rewrite Z.eqb_refl. reflexivity.
    + rewrite E. exact IH.
Qed.

Lemma mapGet_mapSet_other (m : list (Z * list IP)) (k k' : Z) (v : list IP) :
  k' <> k -> mapGet (mapSet m k v) k' = mapGet m k'.
Proof.
  intros Hne. induction m as [|[k0 v0] m IH]; cbn.
  - destruct (k =? k') eqn:E; [apply Z.eqb_eq in E; congruence | reflexivity].
  - destruct (k0 =? k) eqn:E; cbn.
    + apply Z.eqb_eq in E. subst k0.
      destruct (k =? k') eqn:E'; [apply Z.eqb_eq in E'; congruence | reflexivity].
    + destruct (k0 =? k'); [reflexivity | exact IH].
Qed.

(** ** Replies *)

Lemma replyReceived_records_aux (ip : IP) (n n' : NFQueueTraceroute) :
  left_by (replyReceived ip n) = Some n' ->
  mapGet (traceResult n') (ttl n) = mapGet (traceResult n) (ttl n) ++ [ip]
  /\ (forall k, k <> ttl n ->
        mapGet (traceResult n') k = mapGet (traceResult n) k).
Proof.
  destruct n as [t tm r rm mf c tr st rto [|] [|] [| |]];
    run_engine; split_ifs; try discriminate;
    intros [= <-]; cbn;
    (split; [apply mapGet_mapSet_same|]);
    intros k Hk; apply mapGet_mapSet_other; exact Hk.
Qed.

(** X3. [replyReceived] appends the responder to the results of the
    current TTL and to no other; it changes nothing else that drives the
    probing ([ttl], [ttlRepeat], [count], [responseTimedOut]). This holds
    of the state it leaves even when its [Stop] blocks. *)
Theorem replyReceived_records (ip : IP) (n n' : NFQueueTraceroute) :
  left_by (replyReceived ip n) = Some n' ->
  mapGet (traceResult n') (ttl n) = mapGet (traceResult n) (ttl n) ++ [ip]
  /\ (forall k, k <> ttl n ->
        mapGet (traceResult n') k = mapGet (traceResult n) k)
  /\ ttl n' = ttl n /\ ttlRepeat n' = ttlRepeat n /\ count n' = count n
  /\ responseTimedOut n' = responseTimedOut n.
Proof.
  destruct n as [t tm r rm mf c tr st rto [|] [|] [| |]];
    run_engine; split_ifs; try discriminate;
    intros [= <-]; cbn;
    (split; [apply mapGet_mapSet_same|]);
    (split; [intros k Hk; apply mapGet_mapSet_other; exact Hk|]);
    repeat split.
Qed.

Lemma replyReceived_records_witness :
  left_by (replyReceived hop1 (NewNFQueueTraceroute 3 2 1))
  = Some (set_traceResult [(1, [hop1])] (NewNFQueueTraceroute 3 2 1))
  /\ mapGet (traceResult (set_traceResult [(1, [hop1])]
                            (NewNFQueueTraceroute 3 2 1)))
       (ttl (NewNFQueueTraceroute 3 2 1))
     = mapGet (traceResult (NewNFQueueTraceroute 3 2 1))
         (ttl (NewNFQueueTraceroute 3 2 1)) ++ [hop1].
Proof.
  split; [reflexivity|].
  apply (replyReceived_records hop1 (NewNFQueueTraceroute 3 2 1)
           (set_traceResult [(1, [hop1])] (NewNFQueueTraceroute 3 2 1))).
  reflexivity.
Defined.

(** [replyReceived] stops the engine exactly on the reply that brings the
    results of [ttl = ttlMax] to [ttlRepeatMax] entries or more. *)
Lemma replyReceived_calls_Stop (ip : IP) (n : NFQueueTraceroute) :
  replyReceived ip n =
    let n1 :=
      set_traceResult
        (mapSet (traceResult n) (ttl n) (mapGet (traceResult n) (ttl n) ++ [ip]))
        n in
    if (ttl n =? ttlMax n)
       && (ttlRepeatMax n
           <=? Z.of_nat (List.length (mapGet (traceResult n) (ttl n))) + 1)
    then Stop FromConsumer n1
    else Returns tt n1.
Proof.
  unfold replyReceived, bind, modify, get, ret. cbn.
  rewrite mapGet_mapSet_same, length_app. cbn [List.length].
  replace (Z.of_nat (List.length (mapGet (traceResult n) (ttl n)) + 1))
    with (Z.of_nat (List.length (mapGet (traceResult n) (ttl n))) + 1) by lia.
  destruct ((ttl n =? ttlMax n)
            && (ttlRepeatMax n
                <=? Z.of_nat (List.length (mapGet (traceResult n) (ttl n))) + 1));
    reflexivity.
Qed.

(** X4. A reply that arrives when the engine is already stopped, at
    [ttl = ttlMax] with one reply short of [ttlRepeatMax] or more on
    record, never returns: it calls [Stop] again, which panics on the closed
    channel or blocks the sniffer for ever. *)
Theorem replyReceived_after_stop_fails (ip : IP) (n n' : NFQueueTraceroute) :
  consistent n ->
  stopped n = true ->
  ttl n = ttlMax n ->
  ttlRepeatMax n
    <= Z.of_nat (List.length (mapGet (traceResult n) (ttl n))) + 1 ->
  replyReceived ip n <> Returns tt n'.
Proof.
  intros Hc Hs Ht Hlen. rewrite replyReceived_calls_Stop. cbv zeta.
  replace (ttl n =? ttlMax n) with true by (symmetry; apply Z.eqb_eq; exact Ht).
  replace (ttlRepeatMax n
           <=? Z.of_nat (List.length (mapGet (traceResult n) (ttl n))) + 1)
    with true by (symmetry; apply Z.leb_le; exact Hlen).
  cbn [andb]. rewrite Stop_cases.
  unfold consistent in Hc.
  destruct n as [t tm r rm mf c tr st rto [|] [|] [| |]]; cbn in *;
    try discriminate; destruct Hc as (Hst & _); congruence.
Qed.

Lemma replyReceived_after_stop_fails_witness :
  consistent (set_traceResult [(3, [hop3; hop3])] (set_ttl 3 stoppedEngine))
  /\ replyReceived hop3
       (set_traceResult [(3, [hop3; hop3])] (set_ttl 3 stoppedEngine))
     <> Returns tt stoppedEngine.
Proof.
  split; [reflexivity|].
  apply (replyReceived_after_stop_fails hop3
           (set_traceResult [(3, [hop3; hop3])] (set_ttl 3 stoppedEngine))
           stoppedEngine).
  - reflexivity.
  - reflexivity.
  - reflexivity.
  - cbn. lia.
Defined.

(** ** What no event changes *)

(** A relation between the state before and after that every enabled event
    respects holds along every run. *)
Lemma run_preserves {codec : PacketCodec}
  (R : NFQueueTraceroute -> NFQueueTraceroute -> Prop) :
  (forall n, R n n) ->
  (forall a b c, R a b -> R b c -> R a c) ->
  (forall e n n', enabled n e = true ->
                  left_by (handle e n) = Some n' -> R n n') ->
  forall es n n', left_by (run es n) = Some n' -> R n n'.
Proof.
  intros Hrefl Htrans Hstep es.
  induction es as [|e es IH]; intros n n'.
  - cbn. intros [= <-]. apply Hrefl.
  - cbn [run]. destruct (enabled n e) eqn:En; [|apply IH].
    destruct (handle e n) as [v n1| |n1] eqn:Hh.
    + assert (Hr : R n n1) by (apply (Hstep e); [exact En | rewrite Hh; reflexivity]).
      destruct e; [rewrite left_by_bind_ret| |];
        intros Hrest; exact (Htrans _ _ _ Hr (IH _ _ Hrest)).
    + discriminate.
    + assert (Hr : R n n1) by (apply (Hstep e); [exact En | rewrite Hh; reflexivity]).
      destruct e; cbn [left_by];
        try (intros [= <-]; exact Hr).
      intros Hrest. exact (Htrans _ _ _ Hr (IH _ _ Hrest)).
Qed.

Lemma handle_frame {codec : PacketCodec} (e : Event)
  (n n' : NFQueueTraceroute) :
  left_by (handle e n) = Some n' ->
  ttlMax n' = ttlMax n /\ ttlRepeatMax n' = ttlRepeatMax n
  /\ mangleFreq n' = mangleFreq n
  /\ (stopped n = true -> stopped n' = true).
Proof.
  destruct e as [p| |ip]; cbn [handle]; [|rewrite left_by_bind_ret ..];
    destruct n as [t tm r rm mf c tr st rto [|] [|] [| |]];
    run_engine; split_ifs; try discriminate;
    intros [= <-]; cbn; repeat split; auto.
Qed.

(** X5. Along every run of diverted packets, timer expiries and replies,
    the configuration of the engine ([ttlMax], [ttlRepeatMax],
    [mangleFreq]) never changes, and an engine that is stopped stays
    stopped. *)
Theorem run_keeps_config_and_stopped {codec : PacketCodec} (es : list Event)
  (n n' : NFQueueTraceroute) :
  left_by (run es n) = Some n' ->
  ttlMax n' = ttlMax n /\ ttlRepeatMax n' = ttlRepeatMax n
  /\ mangleFreq n' = mangleFreq n
  /\ (stopped n = true -> stopped n' = true).
Proof.
  apply (run_preserves
           (fun a b => ttlMax b = ttlMax a /\ ttlRepeatMax b = ttlRepeatMax a
                       /\ mangleFreq b = mangleFreq a
                       /\ (stopped a = true -> stopped b = true))).
  - intros a. repeat split; auto.
  - intros a b c (H1 & H2 & H3 & H4) (H5 & H6 & H7 & H8).
    repeat split; try congruence. auto.
  - intros e a b _. apply handle_frame.
Qed.

Lemma run_keeps_config_and_stopped_witness :
  left_by (run (codec := wireCodec)
             [Diverted samplePacket; TimerFires; Reply hop1; Diverted samplePacket]
             (NewNFQueueTraceroute 1 2 1))
  = Some (set_traceResult [(2, [hop1])]
            (set_count 3 (set_ttlRepeat 0 (set_ttl 3 (NewNFQueueTraceroute 1 2 1)))))
  /\ ttlMax (set_traceResult [(2, [hop1])]
               (set_count 3 (set_ttlRepeat 0 (set_ttl 3 (NewNFQueueTraceroute 1 2 1)))))
     = ttlMax (NewNFQueueTraceroute 1 2 1).
Proof.
  split; [reflexivity|].
  apply (run_keeps_config_and_stopped (codec := wireCodec)
           [Diverted samplePacket; TimerFires; Reply hop1; Diverted samplePacket]
           (NewNFQueueTraceroute 1 2 1)).
  reflexivity.
Defined.

Lemma handle_results_grow {codec : PacketCodec} (e : Event)
  (n n' : NFQueueTraceroute) (k : Z) :
  left_by (handle e n) = Some n' ->
  exists more, mapGet (traceResult n') k = mapGet (traceResult n) k ++ more.
Proof.
  destruct e as [p| |ip]; cbn [handle]; [|rewrite left_by_bind_ret ..].
  - destruct n as [t tm r rm mf c tr st rto [|] [|] [| |]];
      run_engine; split_ifs; try discriminate;
      intros [= <-]; cbn; exists []; rewrite app_nil_r; reflexivity.
  - destruct n as [t tm r rm mf c tr st rto [|] [|] [| |]];
      run_engine; split_ifs; try discriminate;
      intros [= <-]; cbn; exists []; rewrite app_nil_r; reflexivity.
  - intros H. destruct (replyReceived_records_aux ip n n' H) as (Hk & Hother).
    destruct (Z.eq_dec k (ttl n)) as [-> | Hne].
    + exists [ip]. exact Hk.
    + exists []. rewrite app_nil_r. apply Hother. exact Hne.
Qed.

(** X6. Along every run the responders recorded for a TTL are only ever
    appended to: what was recorded stays, in the order it was received. *)
Theorem run_results_grow {codec : PacketCodec} (es : list Event)
  (n n' : NFQueueTraceroute) (k : Z) :
  left_by (run es n) = Some n' ->
  exists more, mapGet (traceResult n') k = mapGet (traceResult n) k ++ more.
Proof.
  apply (run_preserves
           (fun a b => exists more,
                mapGet (traceResult b) k = mapGet (traceResult a) k ++ more)).
  - intros a. exists []. rewrite app_nil_r. reflexivity.
  - intros a b c [m1 H1] [m2 H2]. exists (m1 ++ m2).
    rewrite H2, H1, app_assoc. reflexivity.
  - intros e a b _. apply handle_results_grow.
Qed.

Lemma run_results_grow_witness :
  left_by (run (codec := wireCodec)
             [Reply hop1; Diverted samplePacket; Reply hop2; Reply hop2]
             (set_traceResult [(1, [hop3])] (NewNFQueueTraceroute 3 3 1)))
  = Some (set_traceResult [(1, [hop3; hop1; hop2; hop2])]
            (set_count 2 (set_ttlRepeat 2 (NewNFQueueTraceroute 3 3 1))))
  /\ exists more,
       mapGet (traceResult
                 (set_traceResult [(1, [hop3; hop1; hop2; hop2])]
                    (set_count 2 (set_ttlRepeat 2 (NewNFQueueTraceroute 3 3 1)))))
         1
       = mapGet (traceResult
                   (set_traceResult [(1, [hop3])] (NewNFQueueTraceroute 3 3 1)))
           1 ++ more.
Proof.
  split; [reflexivity|].
  apply (run_results_grow (codec := wireCodec)
           [Reply hop1; Diverted samplePacket; Reply hop2; Reply hop2]
           (set_traceResult [(1, [hop3])] (NewNFQueueTraceroute 3 3 1))).
  reflexivity.
Defined.

(** X7. What each event can touch: a diverted packet moves [ttl] by at most
    one hop (modulo 256) and leaves the results alone; a timer expiry and a
    reply leave [ttl], [ttlRepeat] and [count] alone, and the expiry leaves
    the results alone too. *)
Theorem handle_touches {codec : PacketCodec} (e : Event)
  (n n' : NFQueueTraceroute) :
  left_by (handle e n) = Some n' ->
  match e with
  | Diverted _ =>
      (ttl n' = ttl n \/ ttl n' = uint8 (ttl n + 1))
      /\ traceResult n' = traceResult n
  | TimerFires =>
      ttl n' = ttl n /\ ttlRepeat n' = ttlRepeat n /\ count n' = count n
      /\ traceResult n' = traceResult n
  | Reply _ =>
      ttl n' = ttl n /\ ttlRepeat n' = ttlRepeat n /\ count n' = count n
  end.
Proof.
  destruct e as [p| |ip]; cbn [handle]; [|rewrite left_by_bind_ret ..];
    destruct n as [t tm r rm mf c tr st rto [|] [|] [| |]];
    run_engine; split_ifs; try discriminate;
    intros [= <-]; cbn; repeat split; auto.
Qed.

Lemma handle_touches_witness :
  left_by (handle (codec := wireCodec) (Diverted samplePacket)
             (NewNFQueueTraceroute 3 2 1))
  = Some (set_count 2 (set_ttlRepeat 0 (set_ttl 2 (NewNFQueueTraceroute 3 2 1))))
  /\ (ttl (set_count 2 (set_ttlRepeat 0 (set_ttl 2 (NewNFQueueTraceroute 3 2 1))))
      = ttl (NewNFQueueTraceroute 3 2 1)
      \/ ttl (set_count 2 (set_ttlRepeat 0 (set_ttl 2 (NewNFQueueTraceroute 3 2 1))))
         = uint8 (ttl (NewNFQueueTraceroute 3 2 1) + 1))
     /\ traceResult
          (set_count 2 (set_ttlRepeat 0 (set_ttl 2 (NewNFQueueTraceroute 3 2 1))))
        = traceResult (NewNFQueueTraceroute 3 2 1).
Proof.
  split; [reflexivity|].
  apply (handle_touches (codec := wireCodec) (Diverted samplePacket)
           (NewNFQueueTraceroute 3 2 1)).
  reflexivity.
Defined.

(** ** Reachable engines *)

(** X8. In every reachable engine the timer goroutine is in its select
    exactly when the engine is not stopped, and while the engine is not
    stopped both control channels are open. *)
Theorem reachable_timer_and_channels {codec : PacketCodec}
  (n : NFQueueTraceroute) :
  reachable n ->
  (stopped n = false <-> timer n = Selecting)
  /\ (stopped n = false ->
      stopTimerChannel n = Open /\ restartTimerChannel n = Open).
Proof.
  intros Hr. pose proof (reachable_consistent n Hr) as Hc.
  unfold consistent in Hc.
  destruct (timer n); [destruct Hc as (Hs & Ho1 & Ho2)|..].
  - split; [split; auto | auto].
  - split; [split; intros H; congruence | intros H; congruence].
  - split; [split; intros H; congruence | intros H; congruence].
Qed.

Lemma reachable_timer_and_channels_witness :
  left_by (handle (codec := wireCodec) (Reply hop1) (NewNFQueueTraceroute 1 1 1))
  = Some repliedEngine
  /\ (stopped repliedEngine = false <-> timer repliedEngine = Selecting)
  /\ (stopped repliedEngine = false ->
      stopTimerChannel repliedEngine = Open
      /\ restartTimerChannel repliedEngine = Open).
Proof.
  split; [reflexivity|].
  apply (reachable_timer_and_channels (codec := wireCodec) repliedEngine).
  apply (reachable_step (NewNFQueueTraceroute 1 1 1) repliedEngine (Reply hop1)).
  - apply reachable_new.
  - reflexivity.
  - reflexivity.
Defined.

(** X9. A call of [processPacket] that starts on a reachable engine whose
    [mangleFreq] is not 0, and during which no other goroutine acts on the
    engine, returns, and it has made exactly one verdict call: its sends to
    the timer find the timer in its select and the channels open. *)
Theorem processPacket_returns_one_verdict {codec : PacketCodec} (p : NFPacket)
  (n : NFQueueTraceroute) :
  reachable n ->
  mangleFreq n <> 0 ->
  exists v n', processPacket p n = Returns [v] n'.
Proof.
  intros Hr Hmf. pose proof (reachable_consistent n Hr) as Hc.
  unfold consistent in Hc.
  destruct n as [t tm r rm mf c tr st rto sc rc [| |]]; cbn in *.
  - destruct Hc as (-> & -> & ->).
    apply Z.eqb_neq in Hmf.
    run_engine. rewrite Hmf. reduce. split_ifs; eexists; eexists; reflexivity.
  - subst st. run_engine. eexists; eexists; reflexivity.
  - subst st. run_engine. eexists; eexists; reflexivity.
Qed.

Lemma processPacket_returns_one_verdict_witness :
  mangleFreq (NewNFQueueTraceroute 3 2 1) <> 0
  /\ processPacket (codec := wireCodec) samplePacket
       (NewNFQueueTraceroute 3 2 1)
     = Returns (REPEAT (codec := wireCodec) samplePacket 2)
         (set_count 2 (set_ttlRepeat 0 (set_ttl 2 (NewNFQueueTraceroute 3 2 1))))
  /\ exists v n',
       processPacket (codec := wireCodec) samplePacket
         (NewNFQueueTraceroute 3 2 1)
       = Returns [v] n'.
Proof.
  split; [discriminate|]. split; [reflexivity|].
  apply (processPacket_returns_one_verdict (codec := wireCodec) samplePacket
           (NewNFQueueTraceroute 3 2 1)).
  - apply reachable_new.
  - discriminate.
Defined.

(** X10. With [mangleFreq = 0] in the options, the first TCP/IP packet of
    a flow that is not tracked yet panics the dispatcher with an integer
    division by zero, before any verdict call. *)
Theorem observer_zero_mangleFreq_panics {codec : PacketCodec} (p : NFPacket)
  (ip : IPv4) (tcp : TCP) (o : NFQueueTraceObserver) :
  PacketLayer (Packet p) LayerTypeIPv4 = Some (IPv4Layer ip) ->
  PacketLayer (Packet p) LayerTypeTCP = Some (TCPLayer tcp) ->
  HasFlow (flowTracker o) (NetworkFlow ip, TransportFlow tcp) = false ->
  optMangleFreq (options o) = 0 ->
  observerProcessPacket p o = Panics IntegerDivideByZero.
Proof.
  intros Hip Htcp Hnew Hmf. unfold observerProcessPacket.
  rewrite Hip, Htcp. unfold bind, get. rewrite Hnew.
  unfold modify, onEngine. cbn [flowTracker set_flowTracker].
  rewrite GetFlowTrace_AddFlow_same, Hmf. reflexivity.
Qed.

Lemma observer_zero_mangleFreq_panics_witness :
  observerProcessPacket (codec := wireCodec) samplePacket
    (NewNFQueueTraceObserver
       {| iface := "wlan0"; optTtlMax := 40; optTtlRepeatMax := 3;
          optMangleFreq := 0 |})
  = Panics IntegerDivideByZero.
Proof.
  apply (observer_zero_mangleFreq_panics (codec := wireCodec) samplePacket
           sampleIP sampleTCP); reflexivity.
Defined.

(** ** The repeat counter and the timer *)

Lemma handle_ttlRepeat_range {codec : PacketCodec} (e : Event)
  (n n' : NFQueueTraceroute) :
  2 <= ttlRepeatMax n < 2 ^ 63 ->
  0 <= ttlRepeat n < ttlRepeatMax n ->
  left_by (handle e n) = Some n' ->
  0 <= ttlRepeat n' < ttlRepeatMax n'.
Proof.
  intros Hrm Hr.
  destruct e as [p| |ip]; cbn [handle]; [|rewrite left_by_bind_ret ..];
    destruct n as [t tm r rm mf c tr st rto [|] [|] [| |]]; cbn in Hrm, Hr;
    assert (E1 : int (r + 1) = r + 1) by (apply int_small; lia);
    run_engine; split_ifs; rewrite ?E1 in *;
    repeat match goal with
           | H : (_ =? _) = true |- _ => apply Z.eqb_eq in H
           | H : (_ =? _) = false |- _ => apply Z.eqb_neq in H
           end;
    try discriminate; intros [= <-]; cbn; lia.
Qed.

(** X11. In every reachable engine with [2 <= ttlRepeatMax] the repeat
    counter stays within [0 <= ttlRepeat < ttlRepeatMax], stopped or not. *)
Theorem reachable_ttlRepeat_range {codec : PacketCodec}
  (n : NFQueueTraceroute) :
  reachable n ->
  2 <= ttlRepeatMax n < 2 ^ 63 ->
  0 <= ttlRepeat n < ttlRepeatMax n.
Proof.
  induction 1 as [a b c | n n' e Hr IH Hen Hstep]; intros Hrm.
  - cbn in *. lia.
  - destruct (handle_frame e n n' Hstep) as (_ & Hsame & _).
    rewrite Hsame in Hrm.
    exact (handle_ttlRepeat_range e n n' Hrm (IH Hrm) Hstep).
Qed.

Lemma reachable_ttlRepeat_range_witness :
  2 <= ttlRepeatMax (NewNFQueueTraceroute 40 3 6) < 2 ^ 63
  /\ 0 <= ttlRepeat (NewNFQueueTraceroute 40 3 6)
     < ttlRepeatMax (NewNFQueueTraceroute 40 3 6).
Proof.
  split; [cbn; lia|].
  apply (reachable_ttlRepeat_range (codec := wireCodec)
           (NewNFQueueTraceroute 40 3 6)).
  - apply reachable_new.
  - cbn. lia.
Defined.

(** X12. With [2 <= ttlRepeatMax], a timer expiry that finds the engine
    between two calls (not in the middle of a [processPacket]) never stops
    it: on every reachable engine the expiry only raises
    [responseTimedOut], since its stop test needs
    [ttlRepeat >= ttlRepeatMax]. *)
Theorem TimerExpired_never_stops {codec : PacketCodec}
  (n : NFQueueTraceroute) :
  reachable n ->
  2 <= ttlRepeatMax n < 2 ^ 63 ->
  TimerExpired n = Returns tt (set_responseTimedOut true n).
Proof.
  intros Hr Hrm. pose proof (reachable_ttlRepeat_range n Hr Hrm) as Hrange.
  unfold TimerExpired, bind, get, modify.
  replace (ttlRepeatMax n <=? ttlRepeat n) with false
    by (symmetry; apply Z.leb_gt; lia).
  rewrite andb_false_r. reflexivity.
Qed.

Lemma TimerExpired_never_stops_witness :
  2 <= ttlRepeatMax (NewNFQueueTraceroute 40 3 6) < 2 ^ 63
  /\ TimerExpired (NewNFQueueTraceroute 40 3 6)
     = Returns tt (set_responseTimedOut true (NewNFQueueTraceroute 40 3 6)).
Proof.
  split; [cbn; lia|].
  apply (TimerExpired_never_stops (codec := wireCodec)
           (NewNFQueueTraceroute 40 3 6)).
  - apply reachable_new.
  - cbn. lia.
Defined.

(** ** Probing without timer expiries *)

Ltac to_Z_facts :=
  repeat match goal with
         | H : (_ && _) = true |- _ => apply andb_true_iff in H as [? ?]
         | H : (_ =? _) = true |- _ => apply Z.eqb_eq in H
         | H : (_ =? _) = false |- _ => apply Z.eqb_neq in H
         | H : (_ <? _) = true |- _ => apply Z.ltb_lt in H
         | H : (_ <? _) = false |- _ => apply Z.ltb_ge in H
         end.

Lemma paced_budget_nonneg (tm rm : Z) (n : NFQueueTraceroute) :
  2 <= rm -> paced tm rm n -> 0 <= budget n.
Proof.
  intros Hrm (Htm & Hrm' & Ht & Hns). unfold budget.
  destruct (stopped n); [lia|].
  destruct (Hns eq_refl) as (_ & _ & _ & _ & Hr & Hover).
  rewrite Htm, Hrm'.
  destruct (Z.eq_dec (ttl n) (tm + 1)) as [E | E].
  - rewrite E. specialize (Hover E). lia.
  - nia.
Qed.

Lemma processPacket_budget {codec : PacketCodec} (tm rm : Z) (p : NFPacket)
  (n n' : NFQueueTraceroute) (v : list VerdictCall) :
  1 <= tm < 255 -> 2 <= rm < 2 ^ 63 ->
  paced tm rm n ->
  processPacket p n = Returns v n' ->
  if isProbe v
  then budget n' = budget n - 1 /\ stopped n' = false
  else budget n' = budget n.
Proof.
  intros Htm Hrm.
  destruct n as [t tm' r rm' mf c tr st rto sc rc ti].
  unfold paced; cbn. intros (-> & -> & Ht & Hns).
  destruct st.
  - run_engine. intros H; inversion H; subst. reflexivity.
  - destruct (Hns eq_refl) as (-> & -> & -> & -> & Hr & Hover). clear Hns.
    assert (E1 : int (r + 1) = r + 1) by (apply int_small; lia).
    assert (E2 : int (rm - 1) = rm - 1) by (apply int_small; lia).
    assert (Hu : t <= tm -> uint8 (t + 1) = t + 1)
      by (intros; apply uint8_small; lia).
    run_engine.
    split_ifs; rewrite ?E1, ?E2 in *; to_Z_facts; try discriminate;
      intros HR; inversion HR; subst;
      try match goal with
          | Hp : isProbe _ = _ |- _ => cbn in Hp; discriminate Hp
          end;
      unfold budget; cbn;
      try rewrite Hu by lia; try split; try reflexivity; try nia.
Qed.

Lemma run_packets_budget {codec : PacketCodec} (tm rm : Z)
  (ps : list NFPacket) (n n' : NFQueueTraceroute)
  (vs : list (list VerdictCall)) :
  1 <= tm < 255 -> 2 <= rm < 2 ^ 63 ->
  paced tm rm n ->
  run (map Diverted ps) n = Returns vs n' ->
  probes vs + budget n' = budget n /\ paced tm rm n'.
Proof.
  intros Htm Hrm. revert n vs.
  induction ps as [|p ps IH]; intros n vs Hn.
  - cbn. intros H; inversion H; subst. unfold probes. cbn. split; [lia|exact Hn].
  - cbn [map run enabled handle].
    destruct (processPacket p n) as [v n1| |n1] eqn:Hp; try discriminate.
    unfold bind, ret.
    destruct (run (map Diverted ps) n1) as [vs1 n2| |n2] eqn:Hrun;
      try discriminate.
    intros H; inversion H; subst.
    destruct (processPacket_paced tm rm p n n1 Htm Hrm Hn) as [Hn1 _].
    { rewrite Hp. reflexivity. }
    destruct (IH n1 vs1 Hn1 Hrun) as [Hb Hn'].
    split; [|exact Hn'].
    pose proof (processPacket_budget tm rm p n n1 v Htm Hrm Hn Hp) as Hstep.
    unfold probes in *. cbn [filter].
    destruct (isProbe v); cbn [List.length]; lia.
Qed.

(** X13. The probes of an engine are bounded. With [1 <= ttlMax < 255]
    and [2 <= ttlRepeatMax], when diverted packets alone drive a fresh
    engine (no timer expiry and no reply), the probes it has sent plus the
    probes it has left are always [(ttlMax + 1) * ttlRepeatMax - 3]: it
    never sends more than that many, whatever [mangleFreq] is and however
    many packets are diverted. *)
Theorem fresh_engine_probe_budget {codec : PacketCodec} (tm rm mf : Z)
  (ps : list NFPacket) (n' : NFQueueTraceroute)
  (vs : list (list VerdictCall)) :
  1 <= tm < 255 -> 2 <= rm < 2 ^ 63 ->
  run (map Diverted ps) (NewNFQueueTraceroute tm rm mf) = Returns vs n' ->
  probes vs + budget n' = (tm + 1) * rm - 3
  /\ 0 <= budget n'
  /\ probes vs <= (tm + 1) * rm - 3.
Proof.
  intros Htm Hrm Hrun.
  assert (Hn0 : paced tm rm (NewNFQueueTraceroute tm rm mf))
    by (apply NewNFQueueTraceroute_paced; lia).
  destruct (run_packets_budget tm rm ps _ n' vs Htm Hrm Hn0 Hrun) as [Hb Hn'].
  pose proof (paced_budget_nonneg tm rm n' (proj1 Hrm) Hn') as Hnn.
  unfold budget in Hb at 2. cbn in Hb.
  repeat split; [lia | exact Hnn | lia].
Qed.

Lemma fresh_engine_probe_budget_witness :
  1 <= 3 < 255 /\ 2 <= 2 < 2 ^ 63
  /\ probes [REPEAT (codec := wireCodec) samplePacket 2;
             REPEAT (codec := wireCodec) samplePacket 2;
             REPEAT (codec := wireCodec) samplePacket 3]
     + budget (set_count 4 (set_ttlRepeat 0 (set_ttl 3 (NewNFQueueTraceroute 3 2 1))))
     = (3 + 1) * 2 - 3
  /\ 0 <= budget (set_count 4 (set_ttlRepeat 0 (set_ttl 3 (NewNFQueueTraceroute 3 2 1))))
  /\ probes [REPEAT (codec := wireCodec) samplePacket 2;
             REPEAT (codec := wireCodec) samplePacket 2;
             REPEAT (codec := wireCodec) samplePacket 3]
     <= (3 + 1) * 2 - 3.
Proof.
  split; [lia|]. split; [lia|].
  apply (fresh_engine_probe_budget (codec := wireCodec) 3 2 1
           [samplePacket; samplePacket; samplePacket]).
  - lia.
  - lia.
  - reflexivity.
Defined.

Lemma processPacket_every_packet {codec : PacketCodec} (tm rm : Z)
  (p : NFPacket) (n : NFQueueTraceroute) :
  1 <= tm < 255 -> 2 <= rm < 2 ^ 63 ->
  paced tm rm n ->
  stopped n = false ->
  mangleFreq n = 1 ->
  exists v n',
    processPacket p n = Returns v n'
    /\ mangleFreq n' = 1
    /\ ((budget n = 0 /\ v = ACCEPT /\ stopped n' = true)
        \/ (0 < budget n /\ isProbe v = true /\ stopped n' = false)).
Proof.
  intros Htm Hrm Hn Hs Hmf.
  pose proof (paced_budget_nonneg tm rm n (proj1 Hrm) Hn) as Hnn.
  revert Hn Hs Hmf Hnn.
  destruct n as [t tm' r rm' mf c tr st rto sc rc ti].
  unfold paced; cbn. intros (-> & -> & Ht & Hns) -> ->.
  destruct (Hns eq_refl) as (-> & -> & -> & -> & Hr & Hover). clear Hns.
  unfold budget; cbn. intros Hnn.
  assert (E1 : int (r + 1) = r + 1) by (apply int_small; lia).
  assert (E2 : int (rm - 1) = rm - 1) by (apply int_small; lia).
  assert (Hu : t <= tm -> uint8 (t + 1) = t + 1)
    by (intros; apply uint8_small; lia).
  run_engine. rewrite Z.rem_1_r. reduce.
  split_ifs; rewrite ?E1, ?E2 in *; to_Z_facts;
    try rewrite Hu in * by lia;
    eexists; eexists; (split; [reflexivity|]); (split; [reflexivity|]);
    cbn;
    first [ left; repeat split; try reflexivity; nia
          | right; repeat split; try reflexivity; nia ].
Qed.

Lemma run_until_stopped {codec : PacketCodec} (tm rm : Z) (k : nat) :
  1 <= tm < 255 -> 2 <= rm < 2 ^ 63 ->
  forall (ps : list NFPacket) (n : NFQueueTraceroute),
    paced tm rm n ->
    stopped n = false ->
    mangleFreq n = 1 ->
    budget n = Z.of_nat k ->
    List.length ps = S k ->
    exists vs n',
      run (map Diverted ps) n = Returns (vs ++ [ACCEPT]) n'
      /\ forallb isProbe vs = true
      /\ List.length vs = k
      /\ stopped n' = true.
Proof.
  intros Htm Hrm. induction k as [|k IH]; intros ps n Hn Hs Hmf Hb Hlen.
  - destruct ps as [|p [|q ps]]; try discriminate.
    destruct (processPacket_every_packet tm rm p n Htm Hrm Hn Hs Hmf)
      as (v & n' & Hp & _ & [(_ & -> & Hs') | (Hpos & _)]); [|lia].
    exists [], n'. cbn [map run enabled handle]. rewrite Hp.
    repeat split; auto.
  - destruct ps as [|p ps]; [discriminate|]. injection Hlen as Hlen.
    destruct (processPacket_every_packet tm rm p n Htm Hrm Hn Hs Hmf)
      as (v & n1 & Hp & Hmf1 & [(Hz & _) | (Hpos & Hprobe & Hs1)]); [lia|].
    destruct (processPacket_paced tm rm p n n1 Htm Hrm Hn) as [Hn1 _].
    { rewrite Hp. reflexivity. }
    pose proof (processPacket_budget tm rm p n n1 v Htm Hrm Hn Hp) as Hstep.
    rewrite Hprobe in Hstep. destruct Hstep as [Hb1 _].
    destruct (IH ps n1 Hn1 Hs1 Hmf1) as (vs & n' & Hrun & Hall & Hk & Hs');
      [lia | exact Hlen |].
    exists (v :: vs), n'. cbn [map run enabled handle]. rewrite Hp.
    unfold bind, ret. rewrite Hrun. cbn [forallb List.length app].
    rewrite Hprobe, Hall, Hk. repeat split; auto.
Qed.

(** X14. The trace ends. With [mangleFreq = 1], [1 <= ttlMax < 255] and
    [2 <= ttlRepeatMax], when diverted packets alone drive a fresh engine
    (no timer expiry and no reply), it probes on each of its first
    [(ttlMax + 1) * ttlRepeatMax - 3] packets, accepts the next one and is
    stopped by it. *)
Theorem fresh_engine_stops {codec : PacketCodec} (tm rm : Z)
  (ps : list NFPacket) :
  1 <= tm < 255 -> 2 <= rm < 2 ^ 63 ->
  Z.of_nat (List.length ps) = (tm + 1) * rm - 2 ->
  exists vs n',
    run (map Diverted ps) (NewNFQueueTraceroute tm rm 1)
    = Returns (vs ++ [ACCEPT]) n'
    /\ forallb isProbe vs = true
    /\ Z.of_nat (List.length vs) = (tm + 1) * rm - 3
    /\ stopped n' = true.
Proof.
  intros Htm Hrm Hlen.
  assert (Hn0 : paced tm rm (NewNFQueueTraceroute tm rm 1))
    by (apply NewNFQueueTraceroute_paced; lia).
  destruct (run_until_stopped tm rm (Nat.pred (List.length ps)) Htm Hrm ps
              (NewNFQueueTraceroute tm rm 1) Hn0 eq_refl eq_refl)
    as (vs & n' & Hrun & Hall & Hk & Hs).
  - unfold budget; cbn. nia.
  - assert (0 < Z.of_nat (List.length ps)) by nia. lia.
  - exists vs, n'. repeat split; auto. rewrite Hk. nia.
Qed.

Lemma fresh_engine_stops_witness :
  1 <= 3 < 255 /\ 2 <= 2 < 2 ^ 63
  /\ exists vs n',
       run (codec := wireCodec)
         (map Diverted [samplePacket; samplePacket; samplePacket;
                        samplePacket; samplePacket; samplePacket])
         (NewNFQueueTraceroute 3 2 1)
       = Returns (vs ++ [ACCEPT]) n'
       /\ forallb isProbe vs = true
       /\ Z.of_nat (List.length vs) = (3 + 1) * 2 - 3
       /\ stopped n' = true.
Proof.
  split; [lia|]. split; [lia|].
  apply (fresh_engine_stops (codec := wireCodec) 3 2
           [samplePacket; samplePacket; samplePacket;
            samplePacket; samplePacket; samplePacket]).
  - lia.
  - lia.
  - reflexivity.
Defined.

(** X15. Between two points of a run of diverted packets (no timer expiry,
    [1 <= ttlMax < 255], [2 <= ttlRepeatMax]) the [ttl] of a fresh engine
    never decreases, and it stays within [1 .. ttlMax + 1]. *)
Theorem fresh_engine_ttl_monotone {codec : PacketCodec} (tm rm mf : Z)
  (ps1 ps2 : list NFPacket) (n1 n2 : NFQueueTraceroute) :
  1 <= tm < 255 -> 2 <= rm < 2 ^ 63 ->
  left_by (run (map Diverted ps1) (NewNFQueueTraceroute tm rm mf)) = Some n1 ->
  left_by (run (map Diverted ps2) n1) = Some n2 ->
  1 <= ttl n1 /\ ttl n1 <= ttl n2 /\ ttl n2 <= tm + 1.
Proof.
  intros Htm Hrm H1 H2.
  assert (Hn0 : paced tm rm (NewNFQueueTraceroute tm rm mf))
    by (apply NewNFQueueTraceroute_paced; lia).
  destruct (run_packets_paced tm rm ps1 _ n1 Htm Hrm Hn0 H1) as [Hn1 Hle1].
  destruct (run_packets_paced tm rm ps2 n1 n2 Htm Hrm Hn1 H2) as [_ Hle2].
  cbn in Hle1. lia.
Qed.

Lemma fresh_engine_ttl_monotone_witness :
  1 <= 3 < 255 /\ 2 <= 2 < 2 ^ 63
  /\ 1 <= ttl (set_count 2 (set_ttlRepeat 0 (set_ttl 2 (NewNFQueueTraceroute 3 2 1))))
  /\ ttl (set_count 2 (set_ttlRepeat 0 (set_ttl 2 (NewNFQueueTraceroute 3 2 1))))
     <= ttl (set_count 4 (set_ttlRepeat 0 (set_ttl 3 (NewNFQueueTraceroute 3 2 1))))
  /\ ttl (set_count 4 (set_ttlRepeat 0 (set_ttl 3 (NewNFQueueTraceroute 3 2 1))))
     <= 3 + 1.
Proof.
  split; [lia|]. split; [lia|].
  apply (fresh_engine_ttl_monotone (codec := wireCodec) 3 2 1
           [samplePacket] [samplePacket; samplePacket]).
  - lia.
  - lia.
  - reflexivity.
  - reflexivity.
Defined.

(** ** Pacing *)

Lemma processPacket_probe {codec : PacketCodec} (p : NFPacket)
  (n n' : NFQueueTraceroute) (v : list VerdictCall) :
  processPacket p n = Returns v n' ->
  (isProbe v = true -> Z.rem (count n) (mangleFreq n) = 0)
  /\ (stopped n' = false -> count n' = int (count n + 1))
  /\ mangleFreq n' = mangleFreq n.
Proof.
  destruct n as [t tm r rm mf c tr st rto [|] [|] [| |]];
    run_engine; split_ifs; to_Z_facts; try discriminate;
    intros HR; inversion HR; subst; cbn;
    repeat split; auto; try discriminate.
Qed.

Lemma run_stopped_no_probe {codec : PacketCodec} (es : list Event) :
  forall (n n' : NFQueueTraceroute) (vs : list (list VerdictCall)),
    stopped n = true ->
    run es n = Returns vs n' ->
    forall v, In v vs -> isProbe v = false.
Proof.
  induction es as [|e es IH]; intros n n' vs Hs.
  - cbn. intros HR; inversion HR; subst. intros v [].
  - cbn [run]. destruct (enabled n e) eqn:En; [|apply IH; exact Hs].
    destruct (handle e n) as [v0 n1| |n1] eqn:Hh; try discriminate.
    + assert (Hs1 : stopped n1 = true).
      { apply (handle_frame e n n1); [rewrite Hh; reflexivity | exact Hs]. }
      destruct e as [p| |ip].
      * cbn [handle] in Hh. rewrite (processPacket_stopped p n Hs) in Hh.
        inversion Hh; subst. unfold bind, ret.
        destruct (run es n1) as [vs1 n2| |n2] eqn:Hrun; try discriminate.
        intros HR; inversion HR; subst. intros v [<- | Hin]; [reflexivity|].
        exact (IH n1 n' vs1 Hs Hrun v Hin).
      * apply IH. exact Hs1.
      * apply IH. exact Hs1.
    + destruct e as [p| |ip]; try discriminate.
      apply IH. apply (handle_frame TimerFires n n1); [rewrite Hh; reflexivity | exact Hs].
Qed.

Lemma run_probe_index {codec : PacketCodec} (es : list Event) :
  forall (n n' : NFQueueTraceroute) (vs : list (list VerdictCall))
         (i : nat) (v : list VerdictCall),
    0 <= count n ->
    count n + Z.of_nat (List.length es) < 2 ^ 63 ->
    run es n = Returns vs n' ->
    nth_error vs i = Some v ->
    isProbe v = true ->
    Z.rem (count n + Z.of_nat i) (mangleFreq n) = 0.
Proof.
  induction es as [|e es IH]; intros n n' vs i v Hc Hbound.
  - cbn. intros HR; inversion HR; subst. destruct i; discriminate.
  - cbn [List.length] in Hbound. cbn [run].
    destruct (enabled n e) eqn:En; [|apply IH; lia].
    destruct (handle e n) as [v0 n1| |n1] eqn:Hh; try discriminate.
    + destruct e as [p| |ip].
      * cbn [handle] in Hh.
        destruct (processPacket_probe p n n1 v0 Hh) as (Hcand & Hcount & Hmf).
        unfold bind, ret.
        destruct (run es n1) as [vs1 n2| |n2] eqn:Hrun; try discriminate.
        intros HR; inversion HR; subst.
        destruct i as [|j]; cbn [nth_error].
        -- intros [= <-] Hprobe. rewrite Z.add_0_r. exact (Hcand Hprobe).
        -- intros Hnth Hprobe.
           destruct (stopped n1) eqn:Hs1.
           ++ apply nth_error_In in Hnth.
              rewrite (run_stopped_no_probe es n1 n' vs1 Hs1 Hrun v Hnth) in Hprobe.
              discriminate.
           ++ specialize (Hcount eq_refl).
              rewrite int_small in Hcount by lia.
              rewrite <- Hmf.
              replace (count n + Z.of_nat (S j)) with (count n1 + Z.of_nat j) by lia.
              apply (IH n1 n' vs1 j v); [lia | lia | exact Hrun | exact Hnth | exact Hprobe].
      * destruct (handle_touches TimerFires n n1) as (_ & _ & Hcnt & _);
          [rewrite Hh; reflexivity|].
        destruct (handle_frame TimerFires n n1) as (_ & _ & Hmf & _);
          [rewrite Hh; reflexivity|].
        rewrite <- Hcnt, <- Hmf. apply IH; lia.
      * destruct (handle_touches (Reply ip) n n1) as (_ & _ & Hcnt);
          [rewrite Hh; reflexivity|].
        destruct (handle_frame (Reply ip) n n1) as (_ & _ & Hmf & _);
          [rewrite Hh; reflexivity|].
        rewrite <- Hcnt, <- Hmf. apply IH; lia.
    + destruct e as [p| |ip]; try discriminate.
      destruct (handle_touches TimerFires n n1) as (_ & _ & Hcnt & _);
        [rewrite Hh; reflexivity|].
      destruct (handle_frame TimerFires n n1) as (_ & _ & Hmf & _);
        [rewrite Hh; reflexivity|].
      rewrite <- Hcnt, <- Hmf. apply IH; lia.
Qed.

(** X16. Pacing. In any run of a fresh engine (diverted packets, timer
    expiries and replies in any order), only every [mangleFreq]-th diverted
    packet can be a probe: if the verdict of the packet at position [i]
    (counted from 0) is a probe, then [mangleFreq] divides [i + 1]. *)
Theorem fresh_engine_pacing {codec : PacketCodec} (tm rm mf : Z)
  (es : list Event) (n' : NFQueueTraceroute) (vs : list (list VerdictCall))
  (i : nat) (v : list VerdictCall) :
  Z.of_nat (List.length es) < 2 ^ 63 - 1 ->
  run es (NewNFQueueTraceroute tm rm mf) = Returns vs n' ->
  nth_error vs i = Some v ->
  isProbe v = true ->
  Z.rem (Z.of_nat i + 1) mf = 0.
Proof.
  intros Hlen Hrun Hnth Hprobe.
  pose proof (run_probe_index es (NewNFQueueTraceroute tm rm mf) n' vs i v)
    as H.
  change (count (NewNFQueueTraceroute tm rm mf)) with 1 in H.
  change (mangleFreq (NewNFQueueTraceroute tm rm mf)) with mf in H.
  rewrite Z.add_comm. apply H; auto; lia.
Qed.

Lemma fresh_engine_pacing_witness :
  Z.of_nat (List.length [Diverted samplePacket; Diverted samplePacket;
                         TimerFires; Diverted samplePacket]) < 2 ^ 63 - 1
  /\ Z.rem (Z.of_nat 2 + 1) 3 = 0.
Proof.
  split; [cbn; lia|].
  apply (fresh_engine_pacing (codec := wireCodec) 3 2 3
           [Diverted samplePacket; Diverted samplePacket; TimerFires;
            Diverted samplePacket]
           (set_count 4 (set_ttlRepeat 0 (set_ttl 2 (NewNFQueueTraceroute 3 2 3))))
           [ACCEPT; ACCEPT; REPEAT (codec := wireCodec) samplePacket 2]
           2 (REPEAT (codec := wireCodec) samplePacket 2)).
  - cbn. lia.
  - reflexivity.
  - reflexivity.
  - reflexivity.
Defined.

(** ** The dispatcher *)

Lemma onEngine_left_by {A} (flow : flowKey) (m : M NFQueueTraceroute A)
  (o o' : NFQueueTraceObserver) :
  left_by (onEngine flow m o) = Some o' ->
  exists n n',
    GetFlowTrace (flowTracker o) flow = Some n
    /\ left_by (m n) = Some n'
    /\ o' = set_flowTracker (AddFlow (flowTracker o) flow n') o.
Proof.
  unfold onEngine.
  destruct (GetFlowTrace (flowTracker o) flow) as [n|]; [|discriminate].
  destruct (m n) as [a n1| |n1] eqn:Hm; try discriminate;
    cbn; intros [= <-]; exists n, n1; rewrite Hm; repeat split; reflexivity.
Qed.

(** X17. The dispatcher looks the flow up or creates its engine, and then
    only delegates: for a packet with IPv4 and TCP layers its verdict calls
    are those of [processPacket] on the engine registered for the flow (a
    new engine with the observer's options when there is none), that engine
    is what the tracker holds for the flow afterwards, and no other flow and
    nothing else of the observer is touched. *)
Theorem observerProcessPacket_delegates {codec : PacketCodec} (p : NFPacket)
  (ip : IPv4) (tcp : TCP) (o o' : NFQueueTraceObserver)
  (vs : list VerdictCall) :
  PacketLayer (Packet p) LayerTypeIPv4 = Some (IPv4Layer ip) ->
  PacketLayer (Packet p) LayerTypeTCP = Some (TCPLayer tcp) ->
  observerProcessPacket p o = Returns vs o' ->
  exists n',
    processPacket p (engineFor o (NetworkFlow ip, TransportFlow tcp))
    = Returns vs n'
    /\ GetFlowTrace (flowTracker o') (NetworkFlow ip, TransportFlow tcp)
       = Some n'
    /\ (forall k, k <> (NetworkFlow ip, TransportFlow tcp) ->
          GetFlowTrace (flowTracker o') k = GetFlowTrace (flowTracker o) k)
    /\ options o' = options o /\ done o' = done o
    /\ nfqCloses o' = nfqCloses o /\ doneSenders o' = doneSenders o.
Proof.
  intros Hip Htcp. unfold observerProcessPacket, engineFor.
  rewrite Hip, Htcp. generalize (processPacket p). intros m.
  set (flow := (NetworkFlow ip, TransportFlow tcp)).
  unfold bind, get, HasFlow.
  destruct (GetFlowTrace (flowTracker o) flow) as [n|] eqn:Hget.
  - unfold ret, onEngine. rewrite Hget.
    destruct (m n) as [a n1| |n1] eqn:Hm; try discriminate.
    intros HR; inversion HR; subst. exists n1. cbn.
    split; [reflexivity|]. split; [apply GetFlowTrace_AddFlow_same|].
    split; [intros k Hk; apply GetFlowTrace_AddFlow_other; exact Hk|].
    repeat split.
  - unfold modify, onEngine. cbn [flowTracker set_flowTracker].
    rewrite GetFlowTrace_AddFlow_same.
    destruct (m _) as [a n1| |n1] eqn:Hm; try discriminate.
    intros HR; inversion HR; subst. exists n1. cbn.
    split; [reflexivity|]. split; [apply GetFlowTrace_AddFlow_same|].
    split.
    + intros k Hk. rewrite !GetFlowTrace_AddFlow_other by exact Hk. reflexivity.
    + repeat split.
Qed.

Lemma observerProcessPacket_delegates_witness :
  observerProcessPacket (codec := wireCodec) samplePacket
    (NewNFQueueTraceObserver sampleOptions)
  = Returns ACCEPT trackingObserver
  /\ exists n',
       processPacket (codec := wireCodec) samplePacket
         (engineFor (NewNFQueueTraceObserver sampleOptions)
            (NetworkFlow sampleIP, TransportFlow sampleTCP))
       = Returns ACCEPT n'
       /\ GetFlowTrace (flowTracker trackingObserver)
            (NetworkFlow sampleIP, TransportFlow sampleTCP)
          = Some n'
       /\ (forall k, k <> (NetworkFlow sampleIP, TransportFlow sampleTCP) ->
             GetFlowTrace (flowTracker trackingObserver) k
             = GetFlowTrace (flowTracker (NewNFQueueTraceObserver sampleOptions)) k)
       /\ options trackingObserver = options (NewNFQueueTraceObserver sampleOptions)
       /\ done trackingObserver = done (NewNFQueueTraceObserver sampleOptions)
       /\ nfqCloses trackingObserver
          = nfqCloses (NewNFQueueTraceObserver sampleOptions)
       /\ doneSenders trackingObserver
          = doneSenders (NewNFQueueTraceObserver sampleOptions).
Proof.
  split; [reflexivity|].
  apply (observerProcessPacket_delegates (codec := wireCodec) samplePacket
           sampleIP sampleTCP (NewNFQueueTraceObserver sampleOptions)
           trackingObserver ACCEPT); reflexivity.
Defined.

(** ** The sniffer *)

(** X18. The sniffer never adds or removes a flow: whatever frame
    [receiveReply] handles, the same flows are tracked afterwards, and the
    options and the shutdown state of the observer are as before. *)
Theorem receiveReply_keeps_flows {codec : PacketCodec} (fr : IcmpFrame)
  (o o' : NFQueueTraceObserver) :
  left_by (receiveReply fr o) = Some o' ->
  (forall k, HasFlow (flowTracker o') k = HasFlow (flowTracker o) k)
  /\ options o' = options o /\ done o' = done o
  /\ nfqCloses o' = nfqCloses o /\ doneSenders o' = doneSenders o.
Proof.
  unfold receiveReply.
  destruct (negb _); [cbn; intros [= <-]; repeat split|].
  unfold bind, liftC, get.
  destruct (getPacketFlow (icmpPayload fr)) as [flow|]; [|discriminate].
  destruct (HasFlow (flowTracker o) flow) eqn:Hhas; cbn [negb].
  - intros H. apply onEngine_left_by in H as (n & n' & Hget & _ & ->).
    cbn. split; [|repeat split].
    intros k. destruct (flowKey_eqb k flow) eqn:E.
    + apply flowKey_eqb_eq in E. subst k.
      unfold HasFlow at 1. rewrite GetFlowTrace_AddFlow_same.
      symmetry. exact Hhas.
    + unfold HasFlow. rewrite GetFlowTrace_AddFlow_other; [reflexivity|].
      intros ->. rewrite flowKey_eqb_refl in E. discriminate.
  - cbn. intros [= <-]. repeat split.
Qed.

Lemma receiveReply_keeps_flows_witness :
  left_by (receiveReply (codec := wireCodec) rfc792Frame trackingObserver)
  = Some (set_flowTracker
            [((NetworkFlow sampleIP, TransportFlow sampleTCP),
              set_traceResult [(1, [hop1])]
                (set_count 2 (NewNFQueueTraceroute 40 3 6)))]
            trackingObserver)
  /\ (forall k,
        HasFlow (flowTracker
                   (set_flowTracker
                      [((NetworkFlow sampleIP, TransportFlow sampleTCP),
                        set_traceResult [(1, [hop1])]
                          (set_count 2 (NewNFQueueTraceroute 40 3 6)))]
                      trackingObserver)) k
        = HasFlow (flowTracker trackingObserver) k).
Proof.
  split; [reflexivity|].
  apply (receiveReply_keeps_flows (codec := wireCodec) rfc792Frame
           trackingObserver).
  reflexivity.
Defined.

Lemma typeCode_type (t c : Z) :
  0 <= t < 256 -> 0 <= c < 256 -> uint8 (Z.shiftr (256 * t + c) 8) = t.
Proof.
  intros Ht Hc. rewrite Z.shiftr_div_pow2 by lia. change (2 ^ 8) with 256.
  replace ((256 * t + c) / 256) with t
    by (apply (Z.div_unique _ 256 t c); lia).
  apply uint8_small. exact Ht.
Qed.

(** X19. Only the ICMP type decides whether a sniffed frame is looked at: a
    frame whose type byte is not 11 is dropped with the observer unchanged,
    whatever its code and payload (even one too short to decode), and a
    frame of type 11 is handled the same way whatever its code. *)
Theorem receiveReply_type_only {codec : PacketCodec} (t c : Z) (src : IP)
  (payload : list byte) (o : NFQueueTraceObserver) :
  0 <= t < 256 -> 0 <= c < 256 ->
  (t <> 11 ->
   receiveReply {| icmpTypeCode := 256 * t + c; outerSrcIP := src;
                   icmpPayload := payload |} o
   = Returns tt o)
  /\ receiveReply {| icmpTypeCode := 256 * 11 + c; outerSrcIP := src;
                     icmpPayload := payload |} o
     = receiveReply {| icmpTypeCode := 256 * 11; outerSrcIP := src;
                       icmpPayload := payload |} o.
Proof.
  intros Ht Hc. split.
  - intros Hne. unfold receiveReply. cbn [icmpTypeCode].
    rewrite (typeCode_type t c Ht Hc).
    replace (t =? ICMPv4TypeTimeExceeded) with false
      by (symmetry; apply Z.eqb_neq; exact Hne).
    reflexivity.
  - unfold receiveReply. cbn [icmpTypeCode icmpPayload outerSrcIP].
    rewrite (typeCode_type 11 c) by lia.
    replace (256 * 11) with (256 * 11 + 0) by lia.
    rewrite (typeCode_type 11 0) by lia. reflexivity.
Qed.

Lemma receiveReply_type_only_witness :
  0 <= 3 < 256 /\ 0 <= 1 < 256
  /\ (3 <> 11 ->
      receiveReply (codec := wireCodec)
        {| icmpTypeCode := 256 * 3 + 1; outerSrcIP := hop1;
           icmpPayload := [x45] |} trackingObserver
      = Returns tt trackingObserver)
  /\ receiveReply (codec := wireCodec)
       {| icmpTypeCode := 256 * 11 + 1; outerSrcIP := hop1;
          icmpPayload := [x45] |} trackingObserver
     = receiveReply (codec := wireCodec)
         {| icmpTypeCode := 256 * 11; outerSrcIP := hop1;
            icmpPayload := [x45] |} trackingObserver.
Proof.
  split; [lia|]. split; [lia|].
  apply (receiveReply_type_only (codec := wireCodec) 3 1 hop1 [x45]
           trackingObserver); lia.
Defined.

(** ** From an ICMP payload back to the flow *)

(** X20. The fallback key is the key of the outbound packet. When the decode
    of a payload returns an error after it parsed an IPv4 header with the
    addresses of [ip] (its TTL may differ), and the payload ends with the
    first 8 bytes of the TCP header (ports [s0 s1] and [d0 d1], then 4 more
    bytes), [getPacketFlow] yields exactly the key the dispatcher registers
    for a packet with the IPv4 layer [ip] and those TCP ports. *)
Theorem getPacketFlow_matches_outbound {codec : PacketCodec}
  (payload front rest : list byte) (s0 s1 d0 d1 : byte) (ip : IPv4) :
  payload = front ++ [s0; s1; d0; d1] ++ rest ->
  List.length rest = 4%nat ->
  decodeErr (DecodeLayers payload) = true ->
  SrcIP (decodedIP (DecodeLayers payload)) = SrcIP ip ->
  DstIP (decodedIP (DecodeLayers payload)) = DstIP ip ->
  getPacketFlow payload
  = Ok (NetworkFlow ip, TransportFlow {| sPort := [s0; s1]; dPort := [d0; d1] |}).
Proof.
  intros Hpay Hrest Herr Hsrc Hdst. unfold getPacketFlow, NetworkFlow.
  rewrite Herr, Hsrc, Hdst.
  rewrite slice_tail8 by (subst payload; rewrite !length_app; cbn; lia).
  replace (skipn (List.length payload - 8) payload)
    with ([s0; s1; d0; d1] ++ rest).
  - cbn [bindC app]. rewrite getTCPFlowFromTCPHead_ports. reflexivity.
  - subst payload. rewrite !length_app. cbn [List.length]. rewrite Hrest.
    replace (List.length front + (4 + 4) - 8)%nat with (List.length front) by lia.
    rewrite skipn_app, skipn_all, Nat.sub_diag. reflexivity.
Qed.

Lemma getPacketFlow_matches_outbound_witness :
  rfc792Payload
  = firstn 20 rfc792Payload ++ [x9c; x40; x0a; x6a] ++ [x00; x00; x00; x01]
  /\ decodeErr (DecodeLayers (PacketCodec := wireCodec) rfc792Payload) = true
  /\ getPacketFlow (codec := wireCodec) rfc792Payload
     = Ok (NetworkFlow sampleIP, TransportFlow sampleTCP).
Proof.
  split; [reflexivity|]. split; [reflexivity|].
  apply (getPacketFlow_matches_outbound (codec := wireCodec) rfc792Payload
           (firstn 20 rfc792Payload) [x00; x00; x00; x01]
           x9c x40 x0a x6a sampleIP); reflexivity.
Defined.

(** X21. A time-exceeded reply for a tracked flow reaches its engine: when
    the key of the payload is tracked, what [receiveReply] leaves in the
    tracker for that flow is what [replyReceived] leaves of its engine, with
    the outer source address appended to the results of the engine's
    current TTL. *)
Theorem receiveReply_reaches_engine {codec : PacketCodec} (fr : IcmpFrame)
  (o o' : NFQueueTraceObserver) (flow : flowKey) (n : NFQueueTraceroute) :
  uint8 (Z.shiftr (icmpTypeCode fr) 8) = ICMPv4TypeTimeExceeded ->
  getPacketFlow (icmpPayload fr) = Ok flow ->
  GetFlowTrace (flowTracker o) flow = Some n ->
  left_by (receiveReply fr o) = Some o' ->
  exists n',
    left_by (replyReceived (outerSrcIP fr) n) = Some n'
    /\ GetFlowTrace (flowTracker o') flow = Some n'
    /\ mapGet (traceResult n') (ttl n)
       = mapGet (traceResult n) (ttl n) ++ [outerSrcIP fr].
Proof.
  intros Htyp Hkey Hget. unfold receiveReply. rewrite Htyp, Z.eqb_refl.
  cbn [negb]. unfold bind, liftC, get. rewrite Hkey.
  unfold HasFlow. rewrite Hget. cbn [negb].
  intros H. apply onEngine_left_by in H as (n0 & n' & Hget0 & Hleft & ->).
  rewrite Hget in Hget0. injection Hget0 as <-.
  exists n'. split; [exact Hleft|]. split.
  - cbn. apply GetFlowTrace_AddFlow_same.
  - exact (proj1 (replyReceived_records_aux (outerSrcIP fr) n n' Hleft)).
Qed.

Lemma receiveReply_reaches_engine_witness :
  uint8 (Z.shiftr (icmpTypeCode rfc792Frame) 8) = ICMPv4TypeTimeExceeded
  /\ getPacketFlow (codec := wireCodec) (icmpPayload rfc792Frame)
     = Ok (NetworkFlow sampleIP, TransportFlow sampleTCP)
  /\ exists n',
       left_by (replyReceived (outerSrcIP rfc792Frame)
                  (set_count 2 (NewNFQueueTraceroute 40 3 6))) = Some n'
       /\ GetFlowTrace
            (flowTracker
               (set_flowTracker
                  [((NetworkFlow sampleIP, TransportFlow sampleTCP),
                    set_traceResult [(1, [hop1])]
                      (set_count 2 (NewNFQueueTraceroute 40 3 6)))]
                  trackingObserver))
            (NetworkFlow sampleIP, TransportFlow sampleTCP) = Some n'
       /\ mapGet (traceResult n') (ttl (set_count 2 (NewNFQueueTraceroute 40 3 6)))
          = mapGet (traceResult (set_count 2 (NewNFQueueTraceroute 40 3 6)))
              (ttl (set_count 2 (NewNFQueueTraceroute 40 3 6)))
            ++ [outerSrcIP rfc792Frame].
Proof.
  split; [reflexivity|]. split; [reflexivity|].
  apply (receiveReply_reaches_engine (codec := wireCodec) rfc792Frame
           trackingObserver
           (set_flowTracker
              [((NetworkFlow sampleIP, TransportFlow sampleTCP),
                set_traceResult [(1, [hop1])]
                  (set_count 2 (NewNFQueueTraceroute 40 3 6)))]
              trackingObserver)
           (NetworkFlow sampleIP, TransportFlow sampleTCP)
           (set_count 2 (NewNFQueueTraceroute 40 3 6))); reflexivity.
Defined.

(** ** Ports on the wire *)

(** X22. Reading a port with [binary.BigEndian.Uint16] and writing it back
    with [NewTCPPortEndpoint] gives the two bytes read, and the number read
    is [256 * b0 + b1], below 65536: the endpoint of the fallback carries
    the same raw bytes as the one of a decoded TCP layer. *)
Theorem port_bytes_round_trip (b0 b1 : byte) (rest : list byte) :
  exists port,
    BigEndian_Uint16 (b0 :: b1 :: rest) = Ok port
    /\ port = 256 * byteZ b0 + byteZ b1
    /\ 0 <= port < 65536
    /\ NewTCPPortEndpoint port = NewEndpoint EndpointTCPPort [b0; b1].
Proof.
  exists (be16 b0 b1).
  pose proof (byteZ_range b0) as H0. pose proof (byteZ_range b1) as H1.
  split; [cbn [BigEndian_Uint16]; rewrite Uint16_be16; reflexivity|].
  split; [reflexivity|].
  split; [unfold be16; lia|].
  apply NewTCPPortEndpoint_be16.
Qed.

(** ** Shutdown of the observer *)

Lemma observerProcessPacket_left_by {codec : PacketCodec} (p : NFPacket)
  (o o' : NFQueueTraceObserver) :
  left_by (observerProcessPacket p o) = Some o' ->
  options o' = options o /\ done o' = done o
  /\ nfqCloses o' = nfqCloses o /\ doneSenders o' = doneSenders o.
Proof.
  unfold observerProcessPacket.
  destruct (PacketLayer (Packet p) LayerTypeIPv4) as [[ip|tcp0|b]|];
    try (cbn; intros [= <-]; repeat split).
  destruct (PacketLayer (Packet p) LayerTypeTCP) as [[ip1|tcp|b]|];
    try (cbn; intros [= <-]; repeat split).
  generalize (processPacket p). intros m.
  unfold bind, get.
  destruct (HasFlow (flowTracker o) _).
  - unfold ret. intros H.
    apply onEngine_left_by in H as (n & n' & _ & _ & ->). repeat split.
  - unfold modify. intros H.
    apply onEngine_left_by in H as (n & n' & _ & _ & ->). repeat split.
Qed.

Lemma consumerLoop_after_close {codec : PacketCodec}
  (schedule : list SelectCase) :
  forall (o o' : NFQueueTraceObserver) (ctl : LoopControl),
    done o = Closed ->
    consumerLoop schedule o = Returns ctl o' ->
    ~ In CaseDone schedule /\ nfqCloses o' = nfqCloses o /\ done o' = Closed.
Proof.
  induction schedule as [|c rest IH]; intros o o' ctl Hd.
  - cbn. intros HR; inversion HR; subst. repeat split; auto.
  - cbn [consumerLoop]. destruct c as [p|].
    + cbn [ready consumerIteration]. unfold bind, ret.
      destruct (observerProcessPacket p o) as [vs o1| |o1] eqn:Hp;
        try discriminate.
      destruct (observerProcessPacket_left_by p o o1) as (_ & Hd1 & Hc1 & _);
        [rewrite Hp; reflexivity|].
      intros Hrest.
      destruct (IH o1 o' ctl) as (Hin & Hc & Hd'); [congruence | exact Hrest |].
      repeat split; [|congruence|exact Hd'].
      intros [Hx | Hx]; [discriminate | contradiction].
    + cbn [ready]. rewrite Hd.
      unfold consumerIteration, bind, receive_done, modify, close_done.
      rewrite Hd. cbn. rewrite Hd. cbn. discriminate.
Qed.

(** X23. In any schedule the consumer of [Start] survives, the divertor is
    closed at most once: the loop never reports that it has left the [for],
    and once the [done] channel is closed no further [done] case is taken
    without a panic. *)
Theorem consumerLoop_closes_once {codec : PacketCodec}
  (schedule : list SelectCase) (o o' : NFQueueTraceObserver)
  (ctl : LoopControl) :
  consumerLoop schedule o = Returns ctl o' ->
  ctl = NextIteration
  /\ (nfqCloses o' <= S (nfqCloses o))%nat
  /\ (done o = Closed -> ~ In CaseDone schedule /\ nfqCloses o' = nfqCloses o).
Proof.
  intros Hrun. split.
  { destruct ctl; [reflexivity|].
    exfalso. exact (consumerLoop_never_exits schedule o o' Hrun). }
  split.
  - revert o Hrun. induction schedule as [|c rest IH]; intros o.
    + cbn. intros HR; inversion HR; subst. lia.
    + cbn [consumerLoop]. destruct (ready o c) eqn:Hready; [|apply IH].
      destruct c as [p|].
      * cbn [consumerIteration]. unfold bind, ret.
        destruct (observerProcessPacket p o) as [vs o1| |o1] eqn:Hp;
          try discriminate.
        destruct (observerProcessPacket_left_by p o o1) as (_ & _ & Hc1 & _);
          [rewrite Hp; reflexivity|].
        intros Hrest. specialize (IH o1 Hrest). lia.
      * unfold consumerIteration, bind, receive_done, modify, close_done, ret.
        destruct (done o) eqn:Hd; cbn; rewrite ?Hd; cbn; [|discriminate].
        intros Hrest.
        apply consumerLoop_after_close in Hrest as (_ & Hc & _);
          [|reflexivity].
        cbn in Hc. lia.
  - intros Hd.
    destruct (consumerLoop_after_close schedule o o' ctl Hd Hrun)
      as (Hin & Hc & _).
    split; assumption.
Qed.

Lemma consumerLoop_closes_once_witness :
  consumerLoop (codec := wireCodec)
    [CasePacket samplePacket; CaseDone; CasePacket udpPacket]
    (set_doneSenders 1 (NewNFQueueTraceObserver sampleOptions))
  = Returns NextIteration
      (set_done Closed (set_nfqCloses 1 (set_doneSenders 0 trackingObserver)))
  /\ NextIteration = NextIteration
  /\ (nfqCloses (set_done Closed
                   (set_nfqCloses 1 (set_doneSenders 0 trackingObserver)))
      <= S (nfqCloses (set_doneSenders 1 (NewNFQueueTraceObserver sampleOptions))))%nat.
Proof.
  split; [reflexivity|].
  destruct (consumerLoop_closes_once (codec := wireCodec)
              [CasePacket samplePacket; CaseDone; CasePacket udpPacket]
              (set_doneSenders 1 (NewNFQueueTraceObserver sampleOptions))
              (set_done Closed (set_nfqCloses 1 (set_doneSenders 0 trackingObserver)))
              NextIteration eq_refl) as (H1 & H2 & _).
  split; [exact H1 | exact H2].
Defined.

(** X24. The observer's [Stop] works once. After a [Stop] that the consumer
    has taken, the [done] channel is closed, so a second [Stop] panics with a
    send on a closed channel. *)
Theorem observerStop_twice_panics {codec : PacketCodec}
  (o o1 o2 : NFQueueTraceObserver) (ctl : LoopControl) :
  observerStop o = Returns tt o1 ->
  consumerIteration CaseDone o1 = Returns ctl o2 ->
  nfqCloses o2 = S (nfqCloses o)
  /\ done o2 = Closed
  /\ observerStop o2 = Panics SendOnClosedChannel.
Proof.
  unfold observerStop.
  destruct (done o) eqn:Hd; [|discriminate].
  intros HR; inversion HR; subst. clear HR.
  unfold consumerIteration, bind, receive_done, modify, close_done, ret.
  cbn. rewrite Hd. cbn. rewrite Hd. cbn.
  intros HR; inversion HR; subst. cbn. repeat split.
Qed.

Lemma observerStop_twice_panics_witness :
  observerStop (NewNFQueueTraceObserver sampleOptions)
  = Returns tt (set_doneSenders 1 (NewNFQueueTraceObserver sampleOptions))
  /\ nfqCloses (set_done Closed
                  (set_nfqCloses 1 (NewNFQueueTraceObserver sampleOptions)))
     = S (nfqCloses (NewNFQueueTraceObserver sampleOptions))
  /\ done (set_done Closed
             (set_nfqCloses 1 (NewNFQueueTraceObserver sampleOptions)))
     = Closed
  /\ observerStop (set_done Closed
                     (set_nfqCloses 1 (NewNFQueueTraceObserver sampleOptions)))
     = Panics SendOnClosedChannel.
Proof.
  split; [reflexivity|].
  apply (observerStop_twice_panics (codec := wireCodec)
           (NewNFQueueTraceObserver sampleOptions)
           (set_doneSenders 1 (NewNFQueueTraceObserver sampleOptions))
           (set_done Closed
              (set_nfqCloses 1 (NewNFQueueTraceObserver sampleOptions)))
           NextIteration); reflexivity.
Defined.

(** ** The TTL a probe carries *)

Lemma processPacket_verdict {codec : PacketCodec} (p : NFPacket)
  (n n' : NFQueueTraceroute) (v : list VerdictCall) :
  processPacket p n = Returns v n' ->
  v = ACCEPT \/ (v = REPEAT p (ttl n') /\ stopped n' = false).
Proof.
  destruct n as [t tm r rm mf c tr st rto [|] [|] [| |]];
    run_engine; split_ifs; try discriminate;
    intros HR; inversion HR; subst; cbn; auto.
Qed.

Lemma processPacket_paced_returns {codec : PacketCodec} (tm rm : Z)
  (p : NFPacket) (n : NFQueueTraceroute) :
  paced tm rm n ->
  mangleFreq n <> 0 ->
  exists v n', processPacket p n = Returns v n'.
Proof.
  destruct n as [t tm' r rm' mf c tr st rto sc rc ti].
  unfold paced; cbn. intros (_ & _ & _ & Hns) Hmf.
  destruct st.
  - run_engine. eexists; eexists; reflexivity.
  - destruct (Hns eq_refl) as (-> & -> & -> & -> & _).
    apply Z.eqb_neq in Hmf.
    run_engine. rewrite Hmf. reduce. split_ifs; eexists; eexists; reflexivity.
Qed.

Lemma run_packets_verdicts {codec : PacketCodec} (tm rm : Z)
  (ps : list NFPacket) :
  1 <= tm < 255 -> 2 <= rm < 2 ^ 63 ->
  forall n : NFQueueTraceroute,
    paced tm rm n ->
    mangleFreq n <> 0 ->
    exists vs n',
      run (map Diverted ps) n = Returns vs n'
      /\ List.length vs = List.length ps
      /\ forall (i : nat) (p : NFPacket) (v : list VerdictCall),
           nth_error ps i = Some p ->
           nth_error vs i = Some v ->
           v = ACCEPT \/ exists k, 1 <= k <= tm + 1 /\ v = REPEAT p k.
Proof.
  intros Htm Hrm.
  induction ps as [|p0 ps IH]; intros n Hn Hmf.
  - exists [], n. cbn. repeat split. intros [|i] p v; discriminate.
  - destruct (processPacket_paced_returns tm rm p0 n Hn Hmf) as (v0 & n1 & Hp).
    destruct (processPacket_paced tm rm p0 n n1 Htm Hrm Hn) as [Hn1 _].
    { rewrite Hp. reflexivity. }
    destruct (processPacket_probe p0 n n1 v0 Hp) as (_ & _ & Hmf1).
    destruct (IH n1 Hn1) as (vs1 & n2 & Hrun & Hlen & Hall);
      [rewrite Hmf1; exact Hmf|].
    exists (v0 :: vs1), n2. cbn [map run enabled handle]. rewrite Hp.
    unfold bind, ret. rewrite Hrun.
    split; [reflexivity|]. split; [cbn; rewrite Hlen; reflexivity|].
    intros [|i] p v; cbn [nth_error].
    + intros [= <-] [= <-].
      destruct (processPacket_verdict p0 n n1 v0 Hp) as [-> | [-> _]];
        [left; reflexivity|].
      right. exists (ttl n1). split; [|reflexivity].
      destruct Hn1 as (_ & _ & Ht & _). exact Ht.
    + apply Hall.
Qed.

(** X25. What a probe carries. With [1 <= ttlMax < 255],
    [2 <= ttlRepeatMax] and [mangleFreq] not 0, when diverted packets alone
    drive a fresh engine (no timer expiry and no reply), the run returns
    with one verdict for each packet, and each verdict is either the plain
    ACCEPT or the REPEAT verdict with the diverted packet re-serialised at a
    TTL between 1 and [ttlMax + 1]. *)
Theorem fresh_engine_probe_ttl {codec : PacketCodec} (tm rm mf : Z)
  (ps : list NFPacket) :
  1 <= tm < 255 -> 2 <= rm < 2 ^ 63 -> mf <> 0 ->
  exists vs n',
    run (map Diverted ps) (NewNFQueueTraceroute tm rm mf) = Returns vs n'
    /\ List.length vs = List.length ps
    /\ forall (i : nat) (p : NFPacket) (v : list VerdictCall),
         nth_error ps i = Some p ->
         nth_error vs i = Some v ->
         v = ACCEPT \/ exists k, 1 <= k <= tm + 1 /\ v = REPEAT p k.
Proof.
  intros Htm Hrm Hmf.
  apply (run_packets_verdicts tm rm ps Htm Hrm).
  - apply NewNFQueueTraceroute_paced; lia.
  - exact Hmf.
Qed.

Lemma fresh_engine_probe_ttl_witness :
  1 <= 3 < 255 /\ 2 <= 2 < 2 ^ 63 /\ 1 <> 0
  /\ exists vs n',
       run (codec := wireCodec) (map Diverted [samplePacket; samplePacket])
         (NewNFQueueTraceroute 3 2 1)
       = Returns vs n'
       /\ List.length vs = List.length [samplePacket; samplePacket]
       /\ forall (i : nat) (p : NFPacket) (v : list VerdictCall),
            nth_error [samplePacket; samplePacket] i = Some p ->
            nth_error vs i = Some v ->
            v = ACCEPT
            \/ exists k, 1 <= k <= 3 + 1 /\ v = REPEAT (codec := wireCodec) p k.
Proof.
  split; [lia|]. split; [lia|]. split; [lia|].
  apply (fresh_engine_probe_ttl (codec := wireCodec) 3 2 1
           [samplePacket; samplePacket]); lia.
Defined.

(** ** When [Stop] returns *)

(** X26. [Stop] returns only when a consumer calls it on an engine whose
    timer goroutine is in its select and whose channels are open; it then
    leaves the engine stopped, the timer returned and both channels closed,
    and every later [Stop], by whomever, panics on the closed channel. *)
Theorem Stop_returns_once (who : Caller) (n n1 : NFQueueTraceroute) :
  Stop who n = Returns tt n1 ->
  who = FromConsumer /\ timer n = Selecting
  /\ stopTimerChannel n = Open /\ restartTimerChannel n = Open
  /\ n1 = set_restartTimerChannel Closed
            (set_stopTimerChannel Closed
               (set_timer Returned (set_stopped true n)))
  /\ forall who', Stop who' n1 = Panics SendOnClosedChannel.
Proof.
  intros Hs.
  assert (Hpanic : forall who', Stop who' n1 = Panics SendOnClosedChannel)
    by (intros who'; exact (Stop_twice_panics who who' n n1 Hs)).
  rewrite Stop_cases in Hs.
  destruct (stopTimerChannel n); [|discriminate].
  destruct (timer n), who; try discriminate.
  destruct (restartTimerChannel n); [|discriminate].
  inversion Hs; subst. repeat split; auto.
Qed.

Lemma Stop_returns_once_witness :
  Stop FromConsumer (NewNFQueueTraceroute 3 2 1) = Returns tt stoppedEngine
  /\ forall who', Stop who' stoppedEngine = Panics SendOnClosedChannel.
Proof.
  split; [reflexivity|].
  apply (Stop_returns_once FromConsumer (NewNFQueueTraceroute 3 2 1)
           stoppedEngine).
  reflexivity.
Defined.

(** ** Where [getPacketFlow] is defined *)

(** X27. [getPacketFlow] yields a key exactly when the decode returned no
    error or the packet has at least 8 bytes; otherwise it panics with a
    slice bound out of range. *)
Theorem getPacketFlow_defined {codec : PacketCodec} (packet : list byte) :
  ((exists k, getPacketFlow packet = Ok k)
   <-> decodeErr (DecodeLayers packet) = false
       \/ (8 <= List.length packet)%nat)
  /\ ((forall k, getPacketFlow packet <> Ok k)
      -> getPacketFlow packet = Raise SliceBoundsOutOfRange).
Proof.
  destruct (decodeErr (DecodeLayers packet)) eqn:Herr.
  - destruct (Nat.le_gt_cases 8 (List.length packet)) as [Hlen | Hlen].
    + destruct (length8 (skipn (List.length packet - 8) packet))
        as (t0 & t1 & t2 & t3 & t4 & t5 & t6 & t7 & Htail).
      { rewrite length_skipn. lia. }
      assert (Hok : getPacketFlow packet
                    = Ok (NetworkFlow (decodedIP (DecodeLayers packet)),
                          NewFlow EndpointTCPPort [t0; t1] [t2; t3])).
      { unfold getPacketFlow. rewrite Herr, (slice_tail8 packet Hlen), Htail.
        cbn [bindC]. rewrite getTCPFlowFromTCPHead_ports. reflexivity. }
      split.
      * split; [intros _; right; exact Hlen | intros _; eexists; exact Hok].
      * intros Hno. exfalso. exact (Hno _ Hok).
    + pose proof (getPacketFlow_short packet Herr Hlen) as Hshort.
      split.
      * split.
        -- intros [k Hk]. rewrite Hshort in Hk. discriminate.
        -- intros [H | H]; [discriminate | lia].
      * intros _. exact Hshort.
  - assert (Hok : getPacketFlow packet
                  = Ok (NetworkFlow (decodedIP (DecodeLayers packet)),
                        TransportFlow (decodedTCP (DecodeLayers packet)))).
    { unfold getPacketFlow. rewrite Herr. reflexivity. }
    split.
    + split; [intros _; left; reflexivity | intros _; eexists; exact Hok].
    + intros Hno. exfalso. exact (Hno _ Hok).
Qed.
